(** * kwsk: the action store and the invocation bridge

    A shallow embedding of [restapi/configure_kwsk_actions.go]: the five
    REST handlers that map OpenWhisk actions onto Knative Configurations
    and Routes, and the init/run bridge to the action host.

    Go strings are byte sequences; they are modelled by [string], whose
    characters ([ascii]) are exactly the 256 byte values.  Go maps from
    string to string are [gmap string string]; reading an absent key gives
    the zero value, the empty string.  Pointers to freshly built values
    ([*string], [*ActionExec]) are [option]s.  Calls that leave the process
    (the Knative client, the HTTP client) are the constructors of [Call];
    a handler is a finite tree of such calls, run against an arbitrary
    environment. *)

From Stdlib Require Import ZArith Lia Bool Ascii String DecimalString.
From stdpp Require Import gmap strings list fin_maps.

Local Open Scope string_scope.

(** ** Go values *)

(** [k8s.io/apimachinery]: the reason carried by an API status error.
    Errors that do not come from the API server have [StatusReasonUnknown]. *)
Inductive StatusReason : Type :=
| StatusReasonUnknown
| StatusReasonNotFound
| StatusReasonAlreadyExists
| StatusReasonInvalid
| StatusReasonInternalError.

(** A Go [error]: the text of [err.Error()] and, for API errors, the reason. *)
Record error : Type := mkError {
  err_Error : string;
  err_Reason : StatusReason
}.

(** [errors.IsNotFound] *)
Definition IsNotFound (err : error) : bool :=
  match err_Reason err with
  | StatusReasonNotFound => true
  | _ => false
  end.

(** A Go result pair [(v, err)] with [err != nil] exclusive of [v]. *)
Inductive result (A : Type) : Type :=
| Ok (a : A)
| Err (e : error).
Arguments Ok {A} a.
Arguments Err {A} e.

(** ** Platform resources (knative serving v1alpha1, the fields the handlers touch) *)

Record ObjectMeta : Type := mkObjectMeta {
  Name : string;
  Namespace : string;
  Annotations : gmap string string
}.

Record Container : Type := mkContainer { Image : string }.

Record RevisionSpec : Type := mkRevisionSpec { rs_Container : Container }.

Record RevisionTemplateSpec : Type := mkRevisionTemplateSpec {
  rt_ObjectMeta : ObjectMeta;
  rt_Spec : RevisionSpec
}.

Record ConfigurationSpec : Type := mkConfigurationSpec {
  RevisionTemplate : RevisionTemplateSpec
}.

Record Configuration : Type := mkConfiguration {
  cfg_ObjectMeta : ObjectMeta;
  cfg_Spec : ConfigurationSpec
}.

Record TrafficTarget : Type := mkTrafficTarget {
  ConfigurationName : string;
  Percent : Z
}.

Record RouteSpec : Type := mkRouteSpec { Traffic : list TrafficTarget }.

Record RouteStatus : Type := mkRouteStatus { Domain : string }.

Record Route : Type := mkRoute {
  route_ObjectMeta : ObjectMeta;
  route_Spec : RouteSpec;
  route_Status : RouteStatus
}.

(** The zero [ObjectMeta{}] of the revision template. *)
Definition emptyObjectMeta : ObjectMeta :=
  {| Name := ""; Namespace := ""; Annotations := ∅ |}.

(** Go's [m[k]] on a [map[string]string]: the empty string when [k] is absent. *)
Definition annotation (m : gmap string string) (k : string) : string :=
  default "" (m !! k).

(** ** API models (package [models], the fields the handlers touch) *)

Record ActionExec : Type := mkActionExec {
  exec_Image : string;
  exec_Kind : string;
  exec_Code : string
}.

(** The body of a create/update request: [Version] is read as a plain
    string and [Exec] is compared with [nil]. *)
Record ActionPut : Type := mkActionPut {
  put_Version : string;
  put_Exec : option ActionExec
}.

Record Action : Type := mkAction {
  act_Name : option string;
  act_Namespace : option string;
  act_Version : option string;
  act_Exec : option ActionExec
}.

Record ErrorMessage : Type := mkErrorMessage { em_Error : option string }.

(** ** Wire messages of the action host *)

Record ActionInitValue : Type := mkActionInitValue {
  Main : string;
  Code : string
}.

Record ActionInitMessage : Type := mkActionInitMessage {
  init_Value : ActionInitValue
}.

(** What [getActionParameters] returns, an [interface{}]: the empty
    [map[string]string{}] or the caller's payload. *)
Inductive RunValue (J : Type) : Type :=
| EmptyStringMap
| Payload (v : J).
Arguments EmptyStringMap {J}.
Arguments Payload {J} v.

Record ActionRunMessage (J : Type) : Type := mkActionRunMessage {
  run_Value : RunValue J
}.
Arguments mkActionRunMessage {J} _.
Arguments run_Value {J} _.

(** The [requestBody interface{}] of [actionRequest]: one of the two messages. *)
Inductive RequestBody (J : Type) : Type :=
| InitBody (m : ActionInitMessage)
| RunBody (m : ActionRunMessage J).
Arguments InitBody {J} m.
Arguments RunBody {J} m.

(** ** Go's standard library: [unicode/utf8], [unicode], [strings]

    [sanitizeActionName] is two library calls.  The library is modelled on
    bytes, as Go defines it; the one part that is data rather than code,
    the Unicode case table behind [unicode.To], is a parameter. *)

(** The parts of the Go runtime the handlers call and this file does not
    define: the Unicode case table, and [encoding/json] at the types it is
    used at. *)
Class GoLib : Type := {
  (** [unicode.To(unicode.LowerCase, r)], used for [r > MaxASCII] *)
  To_LowerCase : Z → Z;
  (** a decoded JSON document, Go's [interface{}] after [json.Unmarshal] *)
  JSON : Type;
  json_Unmarshal : string → result JSON;
  json_Marshal : RequestBody JSON → result string
}.

(** A byte as a number, and Go's conversion [byte(x)]. *)
Definition byte_val (c : ascii) : Z := Z.of_N (N_of_ascii c).
Definition mk_byte (x : Z) : ascii := ascii_of_N (Z.to_N (x mod 256)).

Definition RuneError : Z := 0xFFFD.
Definition MaxRune : Z := 0x10FFFF.
Definition RuneSelf : Z := 0x80.
Definition MaxASCII : Z := 0x7F.

(** A Unicode scalar value: what [utf8.ValidRune] accepts. *)
Definition ValidRune (r : Z) : bool :=
  ((0 <=? r) && (r <? 0xD800) || (0xDFFF <? r) && (r <=? MaxRune))%Z.

(** [utf8.acceptRanges], indexed through [utf8.first]: the bounds of the
    second byte after the leading byte [s0]. *)
Definition acceptRange (s0 : Z) : Z * Z :=
  (if s0 =? 0xE0 then (0xA0, 0xBF)
   else if s0 =? 0xED then (0x80, 0x9F)
   else if s0 =? 0xF0 then (0x90, 0xBF)
   else if s0 =? 0xF4 then (0x80, 0x8F)
   else (0x80, 0xBF))%Z.

(** A continuation byte outside [locb..hicb]. *)
Definition notCont (b : Z) : bool := ((b <? 0x80) || (0xBF <? b))%Z.

(** [utf8.DecodeRuneInString]: the first rune of [s] and its width in
    bytes; [(RuneError, 1)] for every malformed or truncated sequence. *)
Definition DecodeRuneInString (s : string) : Z * nat :=
  match s with
  | EmptyString => (RuneError, 0%nat)
  | String c0 t =>
    let s0 := byte_val c0 in
    if (s0 <? RuneSelf)%Z then (s0, 1%nat)
    else if ((s0 <? 0xC2) || (0xF4 <? s0))%Z then (RuneError, 1%nat)
    else
      let sz := if (s0 <? 0xE0)%Z then 2%nat else if (s0 <? 0xF0)%Z then 3%nat else 4%nat in
      let '(lo, hi) := acceptRange s0 in
      if (String.length s <? sz)%nat then (RuneError, 1%nat)
      else match t with
      | EmptyString => (RuneError, 1%nat)
      | String c1 t1 =>
        let s1 := byte_val c1 in
        if ((s1 <? lo) || (hi <? s1))%Z then (RuneError, 1%nat)
        else if (sz <=? 2)%nat then
          (Z.lor (Z.shiftl (Z.land s0 0x1F) 6) (Z.land s1 0x3F), 2%nat)
        else match t1 with
        | EmptyString => (RuneError, 1%nat)
        | String c2 t2 =>
          let s2 := byte_val c2 in
          if notCont s2 then (RuneError, 1%nat)
          else if (sz <=? 3)%nat then
            (Z.lor (Z.lor (Z.shiftl (Z.land s0 0x0F) 12)
                          (Z.shiftl (Z.land s1 0x3F) 6))
                   (Z.land s2 0x3F), 3%nat)
          else match t2 with
          | EmptyString => (RuneError, 1%nat)
          | String c3 _ =>
            let s3 := byte_val c3 in
            if notCont s3 then (RuneError, 1%nat)
            else
              (Z.lor (Z.lor (Z.lor (Z.shiftl (Z.land s0 0x07) 18)
                                   (Z.shiftl (Z.land s1 0x3F) 12))
                            (Z.shiftl (Z.land s2 0x3F) 6))
                     (Z.land s3 0x3F), 4%nat)
          end
        end
      end
  end.

(** The three-byte case of [utf8.EncodeRune]. *)
Definition encode3 (r : Z) : string :=
  String (mk_byte (Z.lor 0xE0 (Z.shiftr r 12)))
    (String (mk_byte (Z.lor 0x80 (Z.land (Z.shiftr r 6) 0x3F)))
       (String (mk_byte (Z.lor 0x80 (Z.land r 0x3F))) EmptyString)).

(** [utf8.EncodeRune] (as [Builder.WriteRune] appends it): negative,
    surrogate and too large values are written as [RuneError]. *)
Definition EncodeRune (r : Z) : string :=
  if ((0 <=? r) && (r <=? 0x7F))%Z then String (mk_byte r) EmptyString
  else if ((0 <=? r) && (r <=? 0x7FF))%Z then
    String (mk_byte (Z.lor 0xC0 (Z.shiftr r 6)))
      (String (mk_byte (Z.lor 0x80 (Z.land r 0x3F))) EmptyString)
  else if ((r <? 0) || (MaxRune <? r) || (0xD800 <=? r) && (r <=? 0xDFFF))%Z then
    encode3 RuneError
  else if (r <=? 0xFFFF)%Z then encode3 r
  else
    String (mk_byte (Z.lor 0xF0 (Z.shiftr r 18)))
      (String (mk_byte (Z.lor 0x80 (Z.land (Z.shiftr r 12) 0x3F)))
         (String (mk_byte (Z.lor 0x80 (Z.land (Z.shiftr r 6) 0x3F)))
            (String (mk_byte (Z.lor 0x80 (Z.land r 0x3F))) EmptyString))).

(** [for _, c := range s]: the runes of [s] in order.  [skip] counts the
    bytes of the current rune still to be stepped over. *)
Fixpoint runes_from (skip : nat) (s : string) : list Z :=
  match s with
  | EmptyString => []
  | String _ t =>
    match skip with
    | S k => runes_from k t
    | O => let '(c, width) := DecodeRuneInString s in
           c :: runes_from (width - 1) t
    end
  end.
Definition runes (s : string) : list Z := runes_from 0 s.

(** [strings.Map]: every rune of [s] replaced by its image, dropped when
    the image is negative.  A byte that is not part of a well-formed
    sequence is read as [RuneError], so its image is written in its place. *)
Definition strings_Map (mapping : Z → Z) (s : string) : string :=
  foldr (fun c out => let r := mapping c in
                      if (0 <=? r)%Z then EncodeRune r +:+ out else out)
        EmptyString (runes s).

(** The ASCII test and the ASCII loop of [strings.ToLower]. *)
Fixpoint isASCII (s : string) : bool :=
  match s with
  | EmptyString => true
  | String c t => (byte_val c <? RuneSelf)%Z && isASCII t
  end.

Definition isUpperByte (c : ascii) : bool :=
  ((byte_val "A" <=? byte_val c) && (byte_val c <=? byte_val "Z"))%Z.

Fixpoint hasUpper (s : string) : bool :=
  match s with
  | EmptyString => false
  | String c t => isUpperByte c || hasUpper t
  end.

Definition lowerByte (c : ascii) : ascii :=
  if isUpperByte c then mk_byte (byte_val c + (byte_val "a" - byte_val "A")) else c.

Fixpoint lowerASCII (s : string) : string :=
  match s with
  | EmptyString => EmptyString
  | String c t => String (lowerByte c) (lowerASCII t)
  end.

Section GoStrings.
Context {lib : GoLib}.

(** [unicode.ToLower] *)
Definition unicode_ToLower (r : Z) : Z :=
  if (r <=? MaxASCII)%Z then
    (if (byte_val "A" <=? r) && (r <=? byte_val "Z") then r + (byte_val "a" - byte_val "A") else r)%Z
  else To_LowerCase r.

(** [strings.ToLower] *)
Definition strings_ToLower (s : string) : string :=
  if isASCII s then
    if negb (hasUpper s) then s else lowerASCII s
  else strings_Map unicode_ToLower s.

End GoStrings.

(** The replacement loop of [strings.Replace] for a non-empty [old]:
    left to right, without overlap, at most [n] times when [n >= 0]. *)
Fixpoint replace_from (old new : string) (n : Z) (skip : nat) (s : string) : string :=
  match s with
  | EmptyString => EmptyString
  | String c t =>
    match skip with
    | S k => replace_from old new n k t
    | O =>
      if (n =? 0)%Z then s
      else if String.prefix old s
           then new +:+ replace_from old new (n - 1) (String.length old - 1) t
           else String c (replace_from old new n 0 t)
    end
  end.

(** [strings.Replace(s, old, new, n)] for a non-empty [old], which is what
    this program passes.  (For an empty [old] Go inserts [new] at rune
    boundaries; that case is outside this model and leaves [s] as it is.) *)
Definition strings_Replace (s old new : string) (n : Z) : string :=
  if String.eqb old new || (n =? 0)%Z then s
  else if String.eqb old EmptyString then s
  else replace_from old new n 0 s.

(** ** Name normalizer *)

(** [namespaceOrDefault] *)
Definition namespaceOrDefault (namespace : string) : string :=
  if String.eqb namespace "_" then "default" else namespace.

(** [sanitizeActionName] *)
Definition sanitizeActionName {lib : GoLib} (name : string) : string :=
  strings_Replace (strings_ToLower name) " " "-" (-1).

(** What the normalizer is to guarantee of a resource name. *)

(** No byte of [s] is the space character. *)
Fixpoint noSpace (s : string) : bool :=
  match s with
  | EmptyString => true
  | String c t => negb (Ascii.eqb c " ") && noSpace t
  end.

(** Every rune of [s] is its own lower case. *)
Definition isLower {lib : GoLib} (s : string) : bool :=
  forallb (fun r => (unicode_ToLower r =? r)%Z) (runes s).

(** The UTF-8 text of a sequence of runes. *)
Definition encodeRunes (rs : list Z) : string :=
  foldr (fun r out => EncodeRune r +:+ out) EmptyString rs.

(** The case table maps every scalar value above ASCII to a scalar value
    that is its own lower case. *)
Definition caseTableSound (lib : GoLib) : Prop :=
  ∀ r : Z, (MaxASCII < r)%Z → ValidRune r = true →
           ValidRune (To_LowerCase r) = true ∧
           unicode_ToLower (To_LowerCase r) = To_LowerCase r.

(** The effect of replacing every space by a hyphen, on bytes and on runes. *)
Definition hyphenate (c : ascii) : ascii := if Ascii.eqb c " " then "-"%char else c.

Fixpoint mapBytes (f : ascii → ascii) (s : string) : string :=
  match s with
  | EmptyString => EmptyString
  | String c t => String (f c) (mapBytes f t)
  end.

Definition hyphenRune (r : Z) : Z := if (r =? 0x20)%Z then 0x2D%Z else r.

(** Every byte of [s] is outside ASCII. *)
Fixpoint highBytes (s : string) : bool :=
  match s with
  | EmptyString => true
  | String c t => (0x80 <=? byte_val c)%Z && highBytes t
  end.

(** A normalized rune: a scalar value that is its own lower case and is
    not the space. *)
Definition normalRune {lib : GoLib} (r : Z) : Prop :=
  ValidRune r = true ∧ unicode_ToLower r = r ∧ r ≠ 0x20%Z.

(** ** Action codec *)

(** The image a Configuration gets when the action names none. *)
Definition defaultImage : string := "openwhisk/action-nodejs-v8".

(** Lines 76-84 of [updateActionFunc]: the annotation map. *)
Definition actionAnnotations (name : string) (action : ActionPut) : gmap string string :=
  let annotations : gmap string string := ∅ in
  let annotations := <["kwsk_action_name" := name]> annotations in
  let annotations := <["kwsk_action_version" := put_Version action]> annotations in
  match put_Exec action with
  | Some exec =>
      let annotations := <["kwsk_action_kind" := exec_Kind exec]> annotations in
      <["kwsk_action_code" := exec_Code exec]> annotations
  | None => annotations
  end.

(** Lines 74-108 of [updateActionFunc]: the Configuration that is sent to
    the platform, for the resource name [configName] and the resolved
    [namespace]. *)
Definition actionToConfig (name configName namespace : string) (action : ActionPut)
  : Configuration :=
  let image := match put_Exec action with
               | Some exec => exec_Image exec
               | None => ""
               end in
  let image := if String.eqb image "" then defaultImage else image in
  {| cfg_ObjectMeta := {| Name := configName;
                          Namespace := namespace;
                          Annotations := actionAnnotations name action |};
     cfg_Spec := {| RevisionTemplate :=
                      {| rt_ObjectMeta := emptyObjectMeta;
                         rt_Spec := {| rs_Container := {| Image := image |} |} |} |} |}.

(** [configToAction] *)
Definition configToAction (config : Configuration) : Action :=
  let objectMeta := cfg_ObjectMeta config in
  let name := annotation (Annotations objectMeta) "kwsk_action_name" in
  let kind := annotation (Annotations objectMeta) "kwsk_action_kind" in
  let version := annotation (Annotations objectMeta) "kwsk_action_version" in
  let code := annotation (Annotations objectMeta) "kwsk_action_code" in
  {| act_Name := Some name;
     act_Namespace := Some (Namespace objectMeta);
     act_Version := Some version;
     act_Exec := Some {| exec_Image := Image (rs_Container (rt_Spec (RevisionTemplate (cfg_Spec config))));
                         exec_Kind := kind;
                         exec_Code := code |} |}.

(** ** [fmt.Sprintf], at the verbs the handlers use *)

Definition LF : string := String (ascii_of_nat 10) EmptyString.

(** [%d] of an [int] *)
Definition fmt_d (x : Z) : string := NilZero.string_of_int (Z.to_int x).

(** [%v] of a [[]byte]: the bytes in decimal between brackets. *)
Definition fmt_v_bytes (b : string) : string :=
  "[" +:+ String.concat " " (map (fun c => fmt_d (byte_val c)) (list_ascii_of_string b)) +:+ "]".

(** ** The outside world: Knative client and HTTP client *)

Record Request : Type := mkRequest {
  req_Method : string;
  req_URL : string;
  req_Host : string;
  req_ContentType : string;
  req_Body : string
}.

(** One constructor per call that leaves the process, indexed by the type
    of its answer.  [Client_Do] stands for [http.NewRequest] followed by
    [http.DefaultClient.Do] and [ioutil.ReadAll]: its answer is the error
    of either of the first two, or the status code and the body read. *)
Inductive Call : Type → Type :=
| Configurations_Create (namespace : string) (config : Configuration) : Call (result Configuration)
| Configurations_Get (namespace name : string) : Call (result Configuration)
| Configurations_List (namespace : string) : Call (result (list Configuration))
| Configurations_Delete (namespace name : string) : Call (option error)
| Routes_Create (namespace : string) (route : Route) : Call (result Route)
| Routes_Get (namespace name : string) : Call (result Route)
| Routes_Delete (namespace name : string) : Call (option error)
| Client_Do (req : Request) : Call (result (Z * string)).

(** A handler: a finite tree of calls, ending in a value or in a Go [panic]. *)
Inductive Prog (A : Type) : Type :=
| Ret (a : A)
| Panic (msg : string)
| Do {X : Type} (c : Call X) (k : X → Prog A).
Arguments Ret {A} a.
Arguments Panic {A} msg.
Arguments Do {A X} c k.

Fixpoint bind {A B : Type} (p : Prog A) (f : A → Prog B) : Prog B :=
  match p with
  | Ret a => f a
  | Panic msg => Panic msg
  | Do c k => Do c (fun x => bind (k x) f)
  end.

#[export] Instance Prog_ret : MRet Prog := fun A a => Ret a.
#[export] Instance Prog_bind : MBind Prog := fun A B f p => bind p f.

Definition call {X : Type} (c : Call X) : Prog X := Do c Ret.

(** A call together with the answer it got. *)
Inductive Event : Type :=
| Ev_Configurations_Create (namespace : string) (config : Configuration) (r : result Configuration)
| Ev_Configurations_Get (namespace name : string) (r : result Configuration)
| Ev_Configurations_List (namespace : string) (r : result (list Configuration))
| Ev_Configurations_Delete (namespace name : string) (r : option error)
| Ev_Routes_Create (namespace : string) (route : Route) (r : result Route)
| Ev_Routes_Get (namespace name : string) (r : result Route)
| Ev_Routes_Delete (namespace name : string) (r : option error)
| Ev_Client_Do (req : Request) (r : result (Z * string)).

Definition event_of {X : Type} (c : Call X) : X → Event :=
  match c in Call X return X → Event with
  | Configurations_Create ns config => Ev_Configurations_Create ns config
  | Configurations_Get ns name => Ev_Configurations_Get ns name
  | Configurations_List ns => Ev_Configurations_List ns
  | Configurations_Delete ns name => Ev_Configurations_Delete ns name
  | Routes_Create ns route => Ev_Routes_Create ns route
  | Routes_Get ns name => Ev_Routes_Get ns name
  | Routes_Delete ns name => Ev_Routes_Delete ns name
  | Client_Do req => Ev_Client_Do req
  end.

Definition isClientDo (e : Event) : bool :=
  match e with
  | Ev_Client_Do _ _ => true
  | _ => false
  end.

(** An environment: any state, and any answer to every call. *)
Record Platform : Type := mkPlatform {
  World : Type;
  answer : ∀ X : Type, Call X → World → X * World
}.
Arguments answer p {X} c w : rename.

Inductive Outcome (A : Type) : Type :=
| Returned (a : A)
| Panicked (msg : string).
Arguments Returned {A} a.
Arguments Panicked {A} msg.

(** Running a handler: the outcome, the world it leaves, and the calls it
    made with their answers, in order. *)
Fixpoint run {A : Type} (P : Platform) (p : Prog A) (w : World P)
  : Outcome A * World P * list Event :=
  match p with
  | Ret a => (Returned a, w, [])
  | Panic msg => (Panicked msg, w, [])
  | Do c k =>
    let '(x, w1) := answer P c w in
    let '(o, w2, tr) := run P (k x) w1 in
    (o, w2, event_of c x :: tr)
  end.

(** ** The handlers *)

Section Handlers.
Context {lib : GoLib}.

Record ActivationResult : Type := mkActivationResult {
  Result : JSON;
  Success : bool
}.

Record Activation : Type := mkActivation {
  ActivationID : option string;
  actv_Name : option string;
  actv_Namespace : option string;
  Response : option ActivationResult;
  Logs : list string
}.

(** The responders of package [actions], with their payloads. *)
Inductive Responder : Type :=
| DeleteActionOK
| DeleteActionNotFound (payload : ErrorMessage)
| DeleteActionInternalServerError (payload : ErrorMessage)
| UpdateActionOK (payload : Action)
| UpdateActionInternalServerError (payload : ErrorMessage)
| GetActionByNameOK (payload : Action)
| GetActionByNameNotFound (payload : ErrorMessage)
| GetActionByNameInternalServerError (payload : ErrorMessage)
| GetAllActionsOK (payload : list Action)
| GetAllActionsInternalServerError (payload : ErrorMessage)
| InvokeActionOK (payload : Activation)
| InvokeActionNotFound (payload : ErrorMessage)
| InvokeActionInternalServerError (payload : ErrorMessage).

(** Request parameters.  The [principal] argument of every handler is
    unused and left out, and so is what the handlers print on standard
    output. *)
Record DeleteActionParams : Type := mkDeleteActionParams {
  del_ActionName : string;
  del_Namespace : string
}.

Record UpdateActionParams : Type := mkUpdateActionParams {
  upd_ActionName : string;
  upd_Namespace : string;
  upd_Action : ActionPut
}.

Record GetActionByNameParams : Type := mkGetActionByNameParams {
  get_ActionName : string;
  get_Namespace : string
}.

Record GetAllActionsParams : Type := mkGetAllActionsParams {
  all_Namespace : string
}.

Record InvokeActionParams : Type := mkInvokeActionParams {
  inv_ActionName : string;
  inv_Namespace : string;
  inv_Payload : option JSON
}.

(** The command-line flags ([kwskFlags]); [--istio] is the gateway address. *)
Record Flags : Type := mkFlags { Istio : string }.

(** [errorMessageFromErr], also where the handlers build the same message inline *)
Definition errorMessageFromErr (err : error) : ErrorMessage :=
  let msg := err_Error err in
  {| em_Error := Some msg |}.

(** [deleteActionFunc] *)
Definition deleteActionFunc (params : DeleteActionParams) : Prog Responder :=
  let configName := sanitizeActionName (del_ActionName params) in
  let namespace := namespaceOrDefault (del_Namespace params) in
  err ← call (Configurations_Delete namespace configName);
  match err with
  | Some err =>
    let errorMessage := errorMessageFromErr err in
    if IsNotFound err then mret (DeleteActionNotFound errorMessage)
    else mret (DeleteActionInternalServerError errorMessage)
  | None =>
    err ← call (Routes_Delete namespace configName);
    match err with
    | Some err =>
      let errorMessage := errorMessageFromErr err in
      if IsNotFound err then mret (DeleteActionNotFound errorMessage)
      else mret (DeleteActionInternalServerError errorMessage)
    | None => mret DeleteActionOK
    end
  end.

(** [getActionByName] *)
Definition getActionByName (name namespace : string) : Prog (result Action) :=
  let configName := sanitizeActionName name in
  let namespace := namespaceOrDefault namespace in
  r ← call (Configurations_Get namespace configName);
  match r with
  | Err err => mret (Err err)
  | Ok config => mret (Ok (configToAction config))
  end.

(** The Route built at lines 122-135 of [updateActionFunc]. *)
Definition routeFor (configName namespace : string) : Route :=
  {| route_ObjectMeta := {| Name := configName; Namespace := namespace; Annotations := ∅ |};
     route_Spec := {| Traffic := [ {| ConfigurationName := configName; Percent := 100 |} ] |};
     route_Status := {| Domain := "" |} |}.

(** [updateActionFunc] *)
Definition updateActionFunc (params : UpdateActionParams) : Prog Responder :=
  let name := upd_ActionName params in
  let configName := sanitizeActionName name in
  let namespace := namespaceOrDefault (upd_Namespace params) in
  let config := actionToConfig name configName namespace (upd_Action params) in
  r ← call (Configurations_Create namespace config);
  match r with
  | Err err => mret (UpdateActionInternalServerError (errorMessageFromErr err))
  | Ok _ =>
    let route := routeFor configName namespace in
    _ ← call (Routes_Create namespace route);
    r ← getActionByName name namespace;
    match r with
    | Err err => mret (UpdateActionInternalServerError (errorMessageFromErr err))
    | Ok action => mret (UpdateActionOK action)
    end
  end.

(** [getActionByNameFunc] *)
Definition getActionByNameFunc (params : GetActionByNameParams) : Prog Responder :=
  r ← getActionByName (get_ActionName params) (get_Namespace params);
  match r with
  | Err err =>
    let errorMessage := errorMessageFromErr err in
    if IsNotFound err then mret (GetActionByNameNotFound errorMessage)
    else mret (GetActionByNameInternalServerError errorMessage)
  | Ok action => mret (GetActionByNameOK action)
  end.

(** [getAllActionsFunc] *)
Definition getAllActionsFunc (params : GetAllActionsParams) : Prog Responder :=
  let namespace := namespaceOrDefault (all_Namespace params) in
  r ← call (Configurations_List namespace);
  match r with
  | Err err => mret (GetAllActionsInternalServerError (errorMessageFromErr err))
  | Ok items =>
    let payload := map configToAction items in
    mret (GetAllActionsOK payload)
  end.

(** [getActionParameters] *)
Definition getActionParameters (params : InvokeActionParams) : RunValue JSON :=
  match inv_Payload params with
  | None => EmptyStringMap
  | Some payload => Payload payload
  end.

(** [fmt.Sprintf("http://%s/%s", istioHostAndPort, path)] *)
Definition gatewayURL (istioHostAndPort path : string) : string :=
  "http://" +:+ istioHostAndPort +:+ "/" +:+ path.

(** [actionRequest]: the status, the body and the error it returns. *)
Definition actionRequest (istioHostAndPort actionHost path : string)
    (requestBody : RequestBody JSON) : Prog (Z * string * option error) :=
  let url := gatewayURL istioHostAndPort path in
  match json_Marshal requestBody with
  | Err err => mret (500%Z, "", Some err)
  | Ok body =>
    let req := {| req_Method := "POST"; req_URL := url; req_Host := actionHost;
                  req_ContentType := "application/json"; req_Body := body |} in
    res ← call (Client_Do req);
    match res with
    | Err err => mret (500%Z, "", Some err)
    | Ok (StatusCode, resBody) => mret (StatusCode, resBody, None)
    end
  end.

Definition StatusOK : Z := 200.
Definition StatusForbidden : Z := 403.

(** [initAction]: [None] is Go's [nil] responder. *)
Definition initAction (istioHostAndPort actionHost actionCode : string)
  : Prog (option Responder) :=
  let initBody := {| init_Value := {| Main := "main"; Code := actionCode |} |} in
  '(resStatus, resBody, err) ← actionRequest istioHostAndPort actionHost "init" (InitBody initBody);
  match err with
  | Some err => mret (Some (InvokeActionInternalServerError (errorMessageFromErr err)))
  | None =>
    if (resStatus =? StatusForbidden)%Z then mret None
    else if negb (resStatus =? StatusOK)%Z then
      let msg := "Error initializating action. Status: " +:+ fmt_d resStatus
                 +:+ ", Message: " +:+ resBody +:+ LF in
      mret (Some (InvokeActionInternalServerError {| em_Error := Some msg |}))
    else mret None
  end.

(** [runAction].  The third message is what [fmt.Sprintf] makes of a
    format with one verb and two operands. *)
Definition runAction (istioHostAndPort actionHost name namespace : string)
    (params : RunValue JSON) : Prog Responder :=
  let runBody := {| run_Value := params |} in
  '(resStatus, resBody, err) ← actionRequest istioHostAndPort actionHost "run" (RunBody runBody);
  match err with
  | Some err => mret (InvokeActionInternalServerError (errorMessageFromErr err))
  | None =>
    if negb (resStatus =? StatusOK)%Z then
      let msg := "Error invoking action. Status: " +:+ fmt_d resStatus
                 +:+ ", Message: " +:+ resBody +:+ LF in
      mret (InvokeActionInternalServerError {| em_Error := Some msg |})
    else
      match json_Unmarshal resBody with
      | Err _ =>
        let msg := "Action invocation result was not valid JSON. Result: %!s(int="
                   +:+ fmt_d resStatus +:+ ")" +:+ LF
                   +:+ "%!(EXTRA []uint8=" +:+ fmt_v_bytes resBody +:+ ")" in
        mret (InvokeActionInternalServerError {| em_Error := Some msg |})
      | Ok resultJson =>
        let activationResult := {| Result := resultJson; Success := true |} in
        let activationId := "dummyactivationid" in
        let logs := [] in
        let activation := {| ActivationID := Some activationId;
                             actv_Name := Some name;
                             actv_Namespace := Some namespace;
                             Response := Some activationResult;
                             Logs := logs |} in
        mret (InvokeActionOK activation)
      end
  end.

(** The text of the [panic] in [invokeActionFunc]. *)
Definition istioPanic : string :=
  "Istio host and port must be provided via --istio flag to invoke actions".

(** [invokeActionFunc] *)
Definition invokeActionFunc (kwskFlags : Flags) (params : InvokeActionParams)
  : Prog Responder :=
  let namespace := namespaceOrDefault (inv_Namespace params) in
  r ← call (Routes_Get namespace (inv_ActionName params));
  match r with
  | Err err =>
    let errorMessage := errorMessageFromErr err in
    if IsNotFound err then mret (InvokeActionNotFound errorMessage)
    else mret (InvokeActionInternalServerError errorMessage)
  | Ok route =>
    r ← call (Configurations_Get namespace (inv_ActionName params));
    match r with
    | Err err =>
      let errorMessage := errorMessageFromErr err in
      if IsNotFound err then mret (InvokeActionNotFound errorMessage)
      else mret (InvokeActionInternalServerError errorMessage)
    | Ok config =>
      let annotations := Annotations (cfg_ObjectMeta config) in
      let actionHost := Domain (route_Status route) in
      let istioHostAndPort := Istio kwskFlags in
      if String.eqb istioHostAndPort "" then
        Panic istioPanic
      else
        errResponder ← initAction istioHostAndPort actionHost
                                  (annotation annotations "kwsk_action_code");
        match errResponder with
        | Some errResponder => mret errResponder
        | None =>
          runAction istioHostAndPort actionHost (Name (cfg_ObjectMeta config)) namespace
                    (getActionParameters params)
        end
    end
  end.

(** The response to a failed fetch in [invokeActionFunc]. *)
Definition resolveFailure (err : error) : Responder :=
  if IsNotFound err then InvokeActionNotFound (errorMessageFromErr err)
  else InvokeActionInternalServerError (errorMessageFromErr err).

(** The messages of [runAction] for a status other than 200, and for a
    body that is not JSON. *)
Definition runStatusMessage (resStatus : Z) (resBody : string) : string :=
  "Error invoking action. Status: " +:+ fmt_d resStatus +:+ ", Message: " +:+ resBody +:+ LF.

Definition runJSONMessage (resStatus : Z) (resBody : string) : string :=
  "Action invocation result was not valid JSON. Result: %!s(int="
  +:+ fmt_d resStatus +:+ ")" +:+ LF +:+ "%!(EXTRA []uint8=" +:+ fmt_v_bytes resBody +:+ ")".

End Handlers.

(** ** A reference platform

    An in-memory Knative, for closed examples: resources are keyed by
    namespace and name; creating an existing name fails with
    [AlreadyExists], reading or deleting a missing one with [NotFound]; a
    created Route gets its domain from the platform.  [mem_routesDown]
    makes every Routes call fail with the given error, and [mem_host] is
    the action host behind the gateway. *)

Record MemWorld : Type := mkMemWorld {
  mem_configs : gmap (string * string) Configuration;
  mem_routes : gmap (string * string) Route;
  mem_routesDown : option error;
  mem_host : Request → result (Z * string)
}.

Definition notFound (kind name : string) : error :=
  {| err_Error := kind +:+ " " +:+ name +:+ " not found"; err_Reason := StatusReasonNotFound |}.

Definition alreadyExists (kind name : string) : error :=
  {| err_Error := kind +:+ " " +:+ name +:+ " already exists";
     err_Reason := StatusReasonAlreadyExists |}.

Definition withDomain (namespace : string) (route : Route) : Route :=
  {| route_ObjectMeta := route_ObjectMeta route;
     route_Spec := route_Spec route;
     route_Status := {| Domain := Name (route_ObjectMeta route) +:+ "." +:+ namespace
                                  +:+ ".example.com" |} |}.

Definition mem_answer (X : Type) (c : Call X) (w : MemWorld) : X * MemWorld :=
  match c in Call X return X * MemWorld with
  | Configurations_Create ns config =>
    let key := (ns, Name (cfg_ObjectMeta config)) in
    match mem_configs w !! key with
    | Some _ => (Err (alreadyExists "configuration" key.2), w)
    | None => (Ok config,
               {| mem_configs := <[key := config]> (mem_configs w);
                  mem_routes := mem_routes w;
                  mem_routesDown := mem_routesDown w;
                  mem_host := mem_host w |})
    end
  | Configurations_Get ns name =>
    match mem_configs w !! (ns, name) with
    | Some config => (Ok config, w)
    | None => (Err (notFound "configuration" name), w)
    end
  | Configurations_List ns =>
    (Ok (omap (fun kv : string * string * Configuration =>
                 if String.eqb kv.1.1 ns then Some kv.2 else None)
              (map_to_list (mem_configs w))), w)
  | Configurations_Delete ns name =>
    match mem_configs w !! (ns, name) with
    | Some _ => (None,
                 {| mem_configs := delete (ns, name) (mem_configs w);
                    mem_routes := mem_routes w;
                    mem_routesDown := mem_routesDown w;
                    mem_host := mem_host w |})
    | None => (Some (notFound "configuration" name), w)
    end
  | Routes_Create ns route =>
    match mem_routesDown w with
    | Some e => (Err e, w)
    | None =>
      let key := (ns, Name (route_ObjectMeta route)) in
      match mem_routes w !! key with
      | Some _ => (Err (alreadyExists "route" key.2), w)
      | None => (Ok (withDomain ns route),
                 {| mem_configs := mem_configs w;
                    mem_routes := <[key := withDomain ns route]> (mem_routes w);
                    mem_routesDown := mem_routesDown w;
                    mem_host := mem_host w |})
      end
    end
  | Routes_Get ns name =>
    match mem_routesDown w with
    | Some e => (Err e, w)
    | None =>
      match mem_routes w !! (ns, name) with
      | Some route => (Ok route, w)
      | None => (Err (notFound "route" name), w)
      end
    end
  | Routes_Delete ns name =>
    match mem_routesDown w with
    | Some e => (Some e, w)
    | None =>
      match mem_routes w !! (ns, name) with
      | Some _ => (None,
                   {| mem_configs := mem_configs w;
                      mem_routes := delete (ns, name) (mem_routes w);
                      mem_routesDown := mem_routesDown w;
                      mem_host := mem_host w |})
      | None => (Some (notFound "route" name), w)
      end
    end
  | Client_Do req => (mem_host w req, w)
  end.

Definition MemPlatform : Platform := {| World := MemWorld; answer := mem_answer |}.

(** A stand-in for the library parameters in closed examples: the Latin-1
    rows of the case table, and a JSON codec that reads the documents
    [{}], [null] and [true] and writes fixed texts. *)
Definition latin1_lower (r : Z) : Z :=
  (if (0xC0 <=? r) && (r <=? 0xDE) && negb (r =? 0xD7) then r + 32 else r)%Z.

Definition syntaxError : error :=
  {| err_Error := "invalid character looking for beginning of value";
     err_Reason := StatusReasonUnknown |}.

Definition exampleLib : GoLib :=
  {| To_LowerCase := latin1_lower;
     JSON := string;
     json_Unmarshal := fun s =>
       if String.eqb s "{}" || String.eqb s "null" || String.eqb s "true"
       then Ok s else Err syntaxError;
     json_Marshal := fun b =>
       match b with
       | InitBody m => Ok ("{init:" +:+ Code (init_Value m) +:+ "}")
       | RunBody m => Ok match run_Value m with
                         | EmptyStringMap => "{value:{}}"
                         | Payload v => "{value:" +:+ v +:+ "}"
                         end
       end |}.

(** An action host that answers [init] with [initStatus] and [run] with
    [runStatus] and [runBody], on the gateway [istio]. *)
Definition hostAnswering (istio : string) (initStatus runStatus : Z) (runBody : string)
  : Request → result (Z * string) :=
  fun req =>
    if String.eqb (req_URL req) ("http://" +:+ istio +:+ "/init") then Ok (initStatus, "")
    else if String.eqb (req_URL req) ("http://" +:+ istio +:+ "/run") then Ok (runStatus, runBody)
    else Err {| err_Error := "no such host"; err_Reason := StatusReasonUnknown |}.

Definition emptyWorld (host : Request → result (Z * string)) : MemWorld :=
  {| mem_configs := ∅; mem_routes := ∅; mem_routesDown := None; mem_host := host |}.

(** A scenario for closed examples: the action [My Action] is created in
    the caller's default namespace on an empty platform. *)
Definition examplePut : UpdateActionParams :=
  {| upd_ActionName := "My Action";
     upd_Namespace := "_";
     upd_Action := {| put_Version := "0.0.1";
                      put_Exec := Some {| exec_Image := "img"; exec_Kind := "nodejs:8";
                                          exec_Code := "function main() {}" |} |} |}.

Definition exampleAction : Action :=
  {| act_Name := Some "My Action";
     act_Namespace := Some "default";
     act_Version := Some "0.0.1";
     act_Exec := Some {| exec_Image := "img"; exec_Kind := "nodejs:8";
                         exec_Code := "function main() {}" |} |}.

Definition storedWorld (host : Request → result (Z * string)) : MemWorld :=
  (run MemPlatform (updateActionFunc (lib := exampleLib) examplePut) (emptyWorld host)).1.2.

Definition exampleInvoke (name : string) : InvokeActionParams (lib := exampleLib) :=
  {| inv_ActionName := name; inv_Namespace := "_"; inv_Payload := None |}.

Definition exampleRequest (path body : string) : Request :=
  {| req_Method := "POST";
     req_URL := gatewayURL "gw:80" path;
     req_Host := "my-action.default.example.com";
     req_ContentType := "application/json";
     req_Body := body |}.

Definition outage : error :=
  {| err_Error := "the server is currently unable to handle the request";
     err_Reason := StatusReasonInternalError |}.

(** The empty platform with the Routes API failing. *)
Definition routesDownWorld : MemWorld :=
  {| mem_configs := ∅; mem_routes := ∅; mem_routesDown := Some outage;
     mem_host := hostAnswering "gw:80" 200 200 "{}" |}.

(** A platform holding the Configuration of [My Action] without its Route. *)
Definition halfStoredWorld : MemWorld :=
  {| mem_configs := mem_configs (storedWorld (hostAnswering "gw:80" 200 200 "{}"));
     mem_routes := ∅; mem_routesDown := None;
     mem_host := hostAnswering "gw:80" 200 200 "{}" |}.

(** The name [Ete au Lac] with its two accented letters, in UTF-8. *)
Definition exampleName : string :=
  String (mk_byte 0xC3) (String (mk_byte 0x89) (String "t"
    (String (mk_byte 0xC3) (String (mk_byte 0xA9) " au Lac")))).

(** A platform that is down: every call, to Knative or to the action
    host, fails with the same error. *)
Definition down_answer (e : error) (X : Type) (c : Call X) (w : unit) : X * unit :=
  match c in Call X return X * unit with
  | Configurations_Create _ _ => (Err e, w)
  | Configurations_Get _ _ => (Err e, w)
  | Configurations_List _ => (Err e, w)
  | Configurations_Delete _ _ => (Some e, w)
  | Routes_Create _ _ => (Err e, w)
  | Routes_Get _ _ => (Err e, w)
  | Routes_Delete _ _ => (Some e, w)
  | Client_Do _ => (Err e, w)
  end.

Definition DownPlatform (e : error) : Platform :=
  {| World := unit; answer := down_answer e |}.

(** The URLs of the requests sent to the action host, in order. *)
Definition requestURLs (tr : list Event) : list string :=
  omap (fun ev => match ev with
                  | Ev_Client_Do req _ => Some (req_URL req)
                  | _ => None
                  end) tr.

(** An event that only reads the platform or talks to the action host. *)
Definition isReadOnly (ev : Event) : bool :=
  match ev with
  | Ev_Routes_Get _ _ _ | Ev_Configurations_Get _ _ _ | Ev_Client_Do _ _ => true
  | _ => false
  end.

(** The message of [initAction] for a status other than 200 and 403. *)
Definition initStatusMessage (resStatus : Z) (resBody : string) : string :=
  "Error initializating action. Status: " +:+ fmt_d resStatus
  +:+ ", Message: " +:+ resBody +:+ LF.

(** * Properties *)

(** ** Action codec *)

Example codec_example :
  configToAction (actionToConfig "My Action" "my-action" "default"
                    (mkActionPut "0.0.1" (Some (mkActionExec "img" "nodejs:8" "code"))))
  = mkAction (Some "My Action") (Some "default") (Some "0.0.1")
             (Some (mkActionExec "img" "nodejs:8" "code")).
Proof. vm_compute. reflexivity. Qed.

(** Without an image the default is stored, and read back in its place. *)
Example codec_default_image :
  act_Exec (configToAction (actionToConfig "a" "a" "default"
                              (mkActionPut "1" (Some (mkActionExec "" "nodejs:8" "code")))))
  = Some (mkActionExec "openwhisk/action-nodejs-v8" "nodejs:8" "code").
Proof. vm_compute. reflexivity. Qed.

Lemma annotation_insert_eq (m : gmap string string) (k v : string) :
  annotation (<[k := v]> m) k = v.
Proof. unfold annotation. by rewrite lookup_insert_eq. Qed.

Lemma annotation_insert_ne (m : gmap string string) (k k' v : string) :
  k ≠ k' → annotation (<[k := v]> m) k' = annotation m k'.
Proof. intros Hne. unfold annotation. by rewrite lookup_insert_ne. Qed.

Lemma annotation_absent (m : gmap string string) (k : string) :
  m !! k = None → annotation m k = "".
Proof. intros H. unfold annotation. by rewrite H. Qed.

(** The name and the version are written for every action. *)
Lemma actionAnnotations_name (name : string) (a : ActionPut) :
  annotation (actionAnnotations name a) "kwsk_action_name" = name.
Proof.
  unfold actionAnnotations. destruct (put_Exec a).
  - rewrite !annotation_insert_ne by discriminate. apply annotation_insert_eq.
  - rewrite annotation_insert_ne by discriminate. apply annotation_insert_eq.
Qed.

Lemma actionAnnotations_version (name : string) (a : ActionPut) :
  annotation (actionAnnotations name a) "kwsk_action_version" = put_Version a.
Proof.
  unfold actionAnnotations. destruct (put_Exec a).
  - rewrite !annotation_insert_ne by discriminate. apply annotation_insert_eq.
  - apply annotation_insert_eq.
Qed.

Lemma actionAnnotations_exec (name : string) (a : ActionPut) (e : ActionExec) :
  put_Exec a = Some e →
  annotation (actionAnnotations name a) "kwsk_action_kind" = exec_Kind e ∧
  annotation (actionAnnotations name a) "kwsk_action_code" = exec_Code e.
Proof.
  intros He. unfold actionAnnotations. rewrite He. split.
  - rewrite annotation_insert_ne by discriminate. apply annotation_insert_eq.
  - apply annotation_insert_eq.
Qed.

(** C3: for an action whose [exec.image] is set (non-empty), decoding the
    Configuration that encodes it gives back the name, the version and the
    kind, code and image of [exec]. *)
Theorem codec_roundtrip (name configName namespace : string) (a : ActionPut) (e : ActionExec) :
  put_Exec a = Some e →
  exec_Image e ≠ "" →
  let d := configToAction (actionToConfig name configName namespace a) in
  act_Name d = Some name ∧
  act_Version d = Some (put_Version a) ∧
  act_Exec d = Some {| exec_Image := exec_Image e;
                       exec_Kind := exec_Kind e;
                       exec_Code := exec_Code e |}.
Proof.
  intros He Himg d. subst d. unfold configToAction; cbn [act_Name act_Version act_Exec].
  unfold actionToConfig; cbn [cfg_ObjectMeta cfg_Spec Annotations RevisionTemplate rt_Spec
                                rs_Container Image].
  rewrite actionAnnotations_name, actionAnnotations_version.
  destruct (actionAnnotations_exec name a e He) as [-> ->].
  rewrite He.
  destruct (String.eqb_spec (exec_Image e) "") as [Heq | _]; [contradiction |].
  done.
Qed.

Lemma codec_roundtrip_witness :
  let a := mkActionPut "0.0.1" (Some (mkActionExec "img" "nodejs:8" "code")) in
  let d := configToAction (actionToConfig "My Action" "my-action" "default" a) in
  act_Name d = Some "My Action" ∧
  act_Version d = Some "0.0.1" ∧
  act_Exec d = Some (mkActionExec "img" "nodejs:8" "code").
Proof.
  intros a d.
  exact (codec_roundtrip "My Action" "my-action" "default" a
           (mkActionExec "img" "nodejs:8" "code") eq_refl
           (fun H : "img" = "" => eq_ind "img" (fun s => match s with
                                                      | EmptyString => False
                                                      | String _ _ => True
                                                      end) I "" H)).
Defined.

(** ** Running handlers *)

Lemma run_bind {A B : Type} (P : Platform) (p : Prog A) (f : A → Prog B) (w : World P) :
  run P (bind p f) w =
  match run P p w with
  | (Returned a, w1, tr1) =>
      let '(o, w2, tr2) := run P (f a) w1 in (o, w2, (tr1 ++ tr2)%list)
  | (Panicked msg, w1, tr1) => (Panicked msg, w1, tr1)
  end.
Proof.
  revert w. induction p as [a | msg | X c k IH]; intros w; cbn [bind run].
  - by destruct (run P (f a) w) as [[o w2] tr2].
  - done.
  - destruct (answer P c w) as [x w1]. rewrite IH.
    destruct (run P (k x) w1) as [[[a | msg] w2] tr1]; [| done].
    destruct (run P (f a) w2) as [[o w3] tr2]. done.
Qed.

(** Unfolds the monadic plumbing of a handler, then splits on every
    answer and every test on the path. *)
Ltac run_handler :=
  unfold call in *; cbn [mbind mret Prog_bind Prog_ret bind run fst snd] in *;
  repeat (case_match; cbn [mbind mret Prog_bind Prog_ret bind run fst snd] in * );
  simplify_eq.

Lemma gatewayURL_path (istio path path' : string) :
  gatewayURL istio path = gatewayURL istio path' → path = path'.
Proof.
  unfold gatewayURL. intros H.
  do 3 apply (inj (String.app _)) in H. exact H.
Qed.

(** Splits the hypotheses that place an event in a computed trace. *)
Ltac trace_cases :=
  cbn [In event_of] in *;
  repeat match goal with
         | H : _ ∨ _ |- _ => destruct H as [H | H]
         | H : False |- _ => destruct H
         | H : _ ∧ _ |- _ => destruct H
         end;
  try discriminate; simplify_eq.

(** Closes the cases in which a request or a status is not the one assumed. *)
Ltac host_cases :=
  cbn [req_URL] in *;
  try match goal with
      | H : gatewayURL _ _ = gatewayURL _ _ |- _ =>
          apply gatewayURL_path in H; discriminate H
      end;
  repeat match goal with
         | H : negb _ = true |- _ => apply negb_true_iff in H
         | H : negb _ = false |- _ => apply negb_false_iff in H
         | H : (_ =? _)%Z = true |- _ => apply Z.eqb_eq in H
         | H : (_ =? _)%Z = false |- _ => apply Z.eqb_neq in H
         end;
  unfold StatusOK, StatusForbidden in *;
  try lia; try congruence.

Section HandlerProperties.
Context {lib : GoLib}.
Variable P : Platform.

(** ** Action store *)

(** C5: delete removes the Configuration, then the Route of the same
    normalized name; either deletion's not-found is answered with
    NotFound and any other error with InternalServerError; after a failed
    Route deletion nothing more is called, so the world is the one the two
    deletions left. *)
Theorem delete_config_then_route (w : World P) (params : DeleteActionParams) :
  let configName := sanitizeActionName (del_ActionName params) in
  let namespace := namespaceOrDefault (del_Namespace params) in
  let '(r1, w1) := answer P (Configurations_Delete namespace configName) w in
  let '(r2, w2) := answer P (Routes_Delete namespace configName) w1 in
  run P (deleteActionFunc params) w =
  match r1 with
  | Some err =>
      (Returned (if IsNotFound err then DeleteActionNotFound (errorMessageFromErr err)
                 else DeleteActionInternalServerError (errorMessageFromErr err)),
       w1, [Ev_Configurations_Delete namespace configName (Some err)])
  | None =>
      match r2 with
      | Some err =>
          (Returned (if IsNotFound err then DeleteActionNotFound (errorMessageFromErr err)
                     else DeleteActionInternalServerError (errorMessageFromErr err)),
           w2, [Ev_Configurations_Delete namespace configName None;
                Ev_Routes_Delete namespace configName (Some err)])
      | None =>
          (Returned DeleteActionOK,
           w2, [Ev_Configurations_Delete namespace configName None;
                Ev_Routes_Delete namespace configName None])
      end
  end.
Proof.
  intros configName namespace. unfold deleteActionFunc.
  fold configName namespace.
  run_handler; (reflexivity || congruence).
Qed.

(** C2: once the Configuration is created, the answer to the Route
    creation plays no part: the response is decided by the Get that
    follows, 200 with the stored Action when it succeeds. *)
Theorem update_ignores_route_create (w w1 : World P) (params : UpdateActionParams)
    (created : Configuration) :
  let name := upd_ActionName params in
  let configName := sanitizeActionName name in
  let namespace := namespaceOrDefault (upd_Namespace params) in
  answer P (Configurations_Create namespace
              (actionToConfig name configName namespace (upd_Action params))) w
    = (Ok created, w1) →
  let '(routeAnswer, w2) := answer P (Routes_Create namespace (routeFor configName namespace)) w1 in
  let '(got, w3) := answer P (Configurations_Get (namespaceOrDefault namespace) configName) w2 in
  (run P (updateActionFunc params) w).1.1 =
  Returned match got with
           | Ok config => UpdateActionOK (configToAction config)
           | Err err => UpdateActionInternalServerError (errorMessageFromErr err)
           end.
Proof.
  intros name configName namespace Hcreate. unfold updateActionFunc, getActionByName.
  fold name configName namespace.
  unfold call; cbn [mbind mret Prog_bind Prog_ret bind run]. rewrite Hcreate.
  run_handler; (reflexivity || congruence).
Qed.

(** C9: decoding is a total function whose four annotation fields are
    never nil and are empty where the key is absent, and List answers
    with the decoding of each Configuration, position by position. *)
Theorem decode_total_list_pointwise (w w1 : World P) (params : GetAllActionsParams)
    (items : list Configuration) :
  answer P (Configurations_List (namespaceOrDefault (all_Namespace params))) w = (Ok items, w1) →
  (∃ payload,
     (run P (getAllActionsFunc params) w).1.1 = Returned (GetAllActionsOK payload) ∧
     length payload = length items ∧
     ∀ i config, items !! i = Some config → payload !! i = Some (configToAction config)) ∧
  (∀ config : Configuration,
     let field k := match Annotations (cfg_ObjectMeta config) !! k with
                    | Some v => v
                    | None => ""
                    end in
     configToAction config =
     {| act_Name := Some (field "kwsk_action_name");
        act_Namespace := Some (Namespace (cfg_ObjectMeta config));
        act_Version := Some (field "kwsk_action_version");
        act_Exec := Some {| exec_Image := Image (rs_Container (rt_Spec (RevisionTemplate
                                                                          (cfg_Spec config))));
                            exec_Kind := field "kwsk_action_kind";
                            exec_Code := field "kwsk_action_code" |} |}).
Proof.
  intros Hlist. split.
  - exists (map configToAction items). split; [| split].
    + unfold getAllActionsFunc, call; cbn [mbind mret Prog_bind Prog_ret bind run].
      rewrite Hlist. reflexivity.
    + apply length_map.
    + intros i config Hi. rewrite list_lookup_fmap, Hi. reflexivity.
  - intros config field. reflexivity.
Qed.

End HandlerProperties.

(** ** Invocation bridge *)

Section InvocationProperties.
Context {lib : GoLib}.
Variable P : Platform.

(** A failed fetch of the Route or of the Configuration ends the
    invocation with NotFound or InternalServerError before any request is
    sent to the action host. *)
Lemma invoke_resolve_failure (w : World P) (kwskFlags : Flags) (params : InvokeActionParams)
    (err : error) :
  let namespace := namespaceOrDefault (inv_Namespace params) in
  let tr := (run P (invokeActionFunc kwskFlags params) w).2 in
  In (Ev_Routes_Get namespace (inv_ActionName params) (Err err)) tr ∨
  In (Ev_Configurations_Get namespace (inv_ActionName params) (Err err)) tr →
  (run P (invokeActionFunc kwskFlags params) w).1.1 = Returned (resolveFailure err) ∧
  forallb (fun e => negb (isClientDo e)) tr = true.
Proof.
  intros namespace tr. subst tr. unfold invokeActionFunc, initAction, runAction, actionRequest.
  fold namespace. unfold resolveFailure.
  intros H. run_handler; trace_cases; try congruence; split; reflexivity.
Qed.

(** C8: without a gateway address no request is ever sent to the action
    host and no invocation succeeds: it ends in the resolve step's
    NotFound or InternalServerError, or, once both fetches have succeeded,
    in the panic. *)
Theorem invoke_without_gateway (w : World P) (kwskFlags : Flags) (params : InvokeActionParams) :
  Istio kwskFlags = "" →
  let namespace := namespaceOrDefault (inv_Namespace params) in
  let out := (run P (invokeActionFunc kwskFlags params) w).1.1 in
  let tr := (run P (invokeActionFunc kwskFlags params) w).2 in
  forallb (fun e => negb (isClientDo e)) tr = true ∧
  (out = Panicked istioPanic ∨ ∃ err, out = Returned (resolveFailure err)) ∧
  (∀ route config,
     In (Ev_Routes_Get namespace (inv_ActionName params) (Ok route)) tr →
     In (Ev_Configurations_Get namespace (inv_ActionName params) (Ok config)) tr →
     out = Panicked istioPanic).
Proof.
  intros Histio namespace out tr. subst out tr.
  unfold invokeActionFunc. fold namespace. rewrite Histio.
  cbn [String.eqb].
  run_handler.
  all: split; [reflexivity | split;
         [| intros route config Hroute Hconfig; trace_cases; try reflexivity]].
  all: first [ left; reflexivity
             | right; eexists; unfold resolveFailure;
               match goal with H : IsNotFound _ = _ |- _ => rewrite H end; reflexivity ].
Qed.

(** C4: when the init endpoint answers 403 and the run endpoint then
    answers 200 with a JSON body, the invocation is not aborted by the
    403: the run request is sent after it, and the invocation returns an
    Activation whose response holds the parsed body and [success = true]. *)
Theorem invoke_init_forbidden_tolerated (w w1 w2 w3 w4 : World P) (kwskFlags : Flags)
    (params : InvokeActionParams) (route : Route) (config : Configuration)
    (initJSON runJSON initBody runBody : string) (resultJson : JSON) :
  let namespace := namespaceOrDefault (inv_Namespace params) in
  let request path body :=
    {| req_Method := "POST";
       req_URL := gatewayURL (Istio kwskFlags) path;
       req_Host := Domain (route_Status route);
       req_ContentType := "application/json";
       req_Body := body |} in
  Istio kwskFlags ≠ "" →
  answer P (Routes_Get namespace (inv_ActionName params)) w = (Ok route, w1) →
  answer P (Configurations_Get namespace (inv_ActionName params)) w1 = (Ok config, w2) →
  json_Marshal (InitBody {| init_Value :=
                              {| Main := "main";
                                 Code := annotation (Annotations (cfg_ObjectMeta config))
                                                    "kwsk_action_code" |} |})
    = Ok initJSON →
  answer P (Client_Do (request "init" initJSON)) w2 = (Ok (403%Z, initBody), w3) →
  json_Marshal (RunBody {| run_Value := getActionParameters params |}) = Ok runJSON →
  answer P (Client_Do (request "run" runJSON)) w3 = (Ok (200%Z, runBody), w4) →
  json_Unmarshal runBody = Ok resultJson →
  ∃ activation,
    run P (invokeActionFunc kwskFlags params) w
    = (Returned (InvokeActionOK activation), w4,
       [Ev_Routes_Get namespace (inv_ActionName params) (Ok route);
        Ev_Configurations_Get namespace (inv_ActionName params) (Ok config);
        Ev_Client_Do (request "init" initJSON) (Ok (403%Z, initBody));
        Ev_Client_Do (request "run" runJSON) (Ok (200%Z, runBody))]) ∧
    Response activation = Some {| Result := resultJson; Success := true |}.
Proof.
  intros namespace request Histio Hroute Hconfig HinitJSON Hinit HrunJSON Hrun Hjson.
  unfold invokeActionFunc, initAction, runAction, actionRequest, call.
  fold namespace.
  cbn [mbind mret Prog_bind Prog_ret bind run].
  rewrite Hroute. cbn [mbind mret Prog_bind Prog_ret bind run].
  rewrite Hconfig. cbn [mbind mret Prog_bind Prog_ret bind run].
  destruct (String.eqb_spec (Istio kwskFlags) "") as [Hempty | _]; [contradiction |].
  rewrite HinitJSON. cbn [mbind mret Prog_bind Prog_ret bind run].
  fold (request "init" initJSON). rewrite Hinit.
  cbn [mbind mret Prog_bind Prog_ret bind run Z.eqb Pos.eqb StatusForbidden].
  rewrite HrunJSON. cbn [mbind mret Prog_bind Prog_ret bind run].
  fold (request "run" runJSON). rewrite Hrun.
  cbn [mbind mret Prog_bind Prog_ret bind run Z.eqb Pos.eqb StatusOK negb].
  rewrite Hjson. cbn [mbind mret Prog_bind Prog_ret bind run event_of].
  eexists. split; reflexivity.
Qed.

(** C6: when the run endpoint answers with a status other than 200, the
    invocation returns InternalServerError with the status and the body
    in its message, and so no Activation. *)
Theorem invoke_run_status_failure (w : World P) (kwskFlags : Flags)
    (params : InvokeActionParams) (runReq : Request) (resStatus : Z) (resBody : string) :
  let out := (run P (invokeActionFunc kwskFlags params) w).1.1 in
  let tr := (run P (invokeActionFunc kwskFlags params) w).2 in
  In (Ev_Client_Do runReq (Ok (resStatus, resBody))) tr →
  req_URL runReq = gatewayURL (Istio kwskFlags) "run" →
  resStatus ≠ 200%Z →
  out = Returned (InvokeActionInternalServerError
                    {| em_Error := Some (runStatusMessage resStatus resBody) |}).
Proof.
  intros out tr. subst out tr.
  unfold invokeActionFunc, initAction, runAction, actionRequest.
  intros Hrun HrunURL Hstatus.
  run_handler; trace_cases; host_cases.
  all: reflexivity.
Qed.

(** C7: when the run endpoint answers 200 with a body that does not parse
    as JSON, the invocation returns InternalServerError, and so no
    Activation. *)
Theorem invoke_run_malformed_result (w : World P) (kwskFlags : Flags)
    (params : InvokeActionParams) (runReq : Request) (resBody : string) (err : error) :
  let out := (run P (invokeActionFunc kwskFlags params) w).1.1 in
  let tr := (run P (invokeActionFunc kwskFlags params) w).2 in
  In (Ev_Client_Do runReq (Ok (200%Z, resBody))) tr →
  req_URL runReq = gatewayURL (Istio kwskFlags) "run" →
  json_Unmarshal resBody = Err err →
  out = Returned (InvokeActionInternalServerError
                    {| em_Error := Some (runJSONMessage 200 resBody) |}).
Proof.
  intros out tr. subst out tr.
  unfold invokeActionFunc, initAction, runAction, actionRequest.
  intros Hrun HrunURL Hjson.
  run_handler; trace_cases; host_cases.
  all: reflexivity.
Qed.

End InvocationProperties.

(** ** Closed instances on the reference platform *)

Lemma update_ignores_route_create_witness :
  In (Ev_Routes_Create "default" (routeFor "my-action" "default") (Err outage))
     (run MemPlatform (updateActionFunc (lib := exampleLib) examplePut) routesDownWorld).2 ∧
  (run MemPlatform (updateActionFunc (lib := exampleLib) examplePut) routesDownWorld).1.1
  = Returned (UpdateActionOK exampleAction).
Proof.
  split; [vm_compute; auto |].
  pose proof (update_ignores_route_create (lib := exampleLib) MemPlatform routesDownWorld
                (answer MemPlatform
                   (Configurations_Create "default"
                      (actionToConfig "My Action" "my-action" "default" (upd_Action examplePut)))
                   routesDownWorld).2
                examplePut
                (actionToConfig "My Action" "my-action" "default" (upd_Action examplePut))
                ltac:(vm_compute; reflexivity)) as H.
  vm_compute in H. vm_compute. exact H.
Defined.

Lemma decode_total_list_pointwise_witness :
  ∃ payload,
    (run MemPlatform (getAllActionsFunc (lib := exampleLib) {| all_Namespace := "_" |})
         (storedWorld (hostAnswering "gw:80" 200 200 "{}"))).1.1
    = Returned (GetAllActionsOK payload) ∧
    length payload = 1%nat.
Proof.
  destruct (decode_total_list_pointwise (lib := exampleLib) MemPlatform
              (storedWorld (hostAnswering "gw:80" 200 200 "{}"))
              (storedWorld (hostAnswering "gw:80" 200 200 "{}"))
              {| all_Namespace := "_" |}
              [actionToConfig "My Action" "my-action" "default" (upd_Action examplePut)]
              ltac:(vm_compute; reflexivity)) as [[payload [Hrun [Hlen _]]] _].
  exists payload. split; [exact Hrun | exact Hlen].
Defined.

(** A Configuration with no annotations decodes to four empty, non-nil fields. *)
Example decode_no_annotations :
  configToAction {| cfg_ObjectMeta := {| Name := "x"; Namespace := "ns"; Annotations := ∅ |};
                    cfg_Spec := {| RevisionTemplate :=
                                     {| rt_ObjectMeta := emptyObjectMeta;
                                        rt_Spec := {| rs_Container := {| Image := "" |} |} |} |} |}
  = {| act_Name := Some ""; act_Namespace := Some "ns"; act_Version := Some "";
       act_Exec := Some {| exec_Image := ""; exec_Kind := ""; exec_Code := "" |} |}.
Proof. vm_compute. reflexivity. Qed.

(** Delete on a Configuration whose Route is missing: the Configuration
    is deleted, the caller gets NotFound, and nothing restores the
    Configuration. *)
Example delete_without_route :
  let res := run MemPlatform
               (deleteActionFunc (lib := exampleLib)
                  {| del_ActionName := "My Action"; del_Namespace := "_" |})
               halfStoredWorld in
  mem_configs halfStoredWorld !! ("default", "my-action")
    = Some (actionToConfig "My Action" "my-action" "default" (upd_Action examplePut)) ∧
  res.1.1 = Returned (DeleteActionNotFound
                        {| em_Error := Some "route my-action not found" |}) ∧
  mem_configs res.1.2 !! ("default", "my-action") = None ∧
  res.2 = [Ev_Configurations_Delete "default" "my-action" None;
           Ev_Routes_Delete "default" "my-action" (Some (notFound "route" "my-action"))].
Proof. vm_compute. repeat split. Qed.

Lemma invoke_without_gateway_witness :
  let res := run MemPlatform
               (invokeActionFunc (lib := exampleLib) {| Istio := "" |} (exampleInvoke "my-action"))
               (storedWorld (hostAnswering "gw:80" 200 200 "{}")) in
  forallb (fun e => negb (isClientDo e)) res.2 = true ∧ res.1.1 = Panicked istioPanic.
Proof.
  intros res.
  destruct (invoke_without_gateway (lib := exampleLib) MemPlatform
              (storedWorld (hostAnswering "gw:80" 200 200 "{}"))
              {| Istio := "" |} (exampleInvoke "my-action") eq_refl) as [Hquiet [_ Hpanic]].
  split; [exact Hquiet |].
  apply (Hpanic (withDomain "default" (routeFor "my-action" "default"))
                (actionToConfig "My Action" "my-action" "default" (upd_Action examplePut))).
  - vm_compute. auto.
  - vm_compute. auto.
Defined.

Lemma invoke_init_forbidden_tolerated_witness :
  ∃ activation,
    run MemPlatform
        (invokeActionFunc (lib := exampleLib) {| Istio := "gw:80" |} (exampleInvoke "my-action"))
        (storedWorld (hostAnswering "gw:80" 403 200 "{}"))
    = (Returned (InvokeActionOK activation),
       storedWorld (hostAnswering "gw:80" 403 200 "{}"),
       [Ev_Routes_Get "default" "my-action"
          (Ok (withDomain "default" (routeFor "my-action" "default")));
        Ev_Configurations_Get "default" "my-action"
          (Ok (actionToConfig "My Action" "my-action" "default" (upd_Action examplePut)));
        Ev_Client_Do (exampleRequest "init" "{init:function main() {}}") (Ok (403%Z, ""));
        Ev_Client_Do (exampleRequest "run" "{value:{}}") (Ok (200%Z, "{}"))]) ∧
    Response activation = Some {| Result := "{}" : JSON (GoLib := exampleLib); Success := true |}.
Proof.
  exact (invoke_init_forbidden_tolerated (lib := exampleLib) MemPlatform
           (storedWorld (hostAnswering "gw:80" 403 200 "{}"))
           (storedWorld (hostAnswering "gw:80" 403 200 "{}"))
           (storedWorld (hostAnswering "gw:80" 403 200 "{}"))
           (storedWorld (hostAnswering "gw:80" 403 200 "{}"))
           (storedWorld (hostAnswering "gw:80" 403 200 "{}"))
           {| Istio := "gw:80" |} (exampleInvoke "my-action")
           (withDomain "default" (routeFor "my-action" "default"))
           (actionToConfig "My Action" "my-action" "default" (upd_Action examplePut))
           "{init:function main() {}}" "{value:{}}" "" "{}" "{}"
           ltac:(discriminate)
           ltac:(vm_compute; reflexivity) ltac:(vm_compute; reflexivity)
           ltac:(vm_compute; reflexivity) ltac:(vm_compute; reflexivity)
           ltac:(vm_compute; reflexivity) ltac:(vm_compute; reflexivity)
           ltac:(vm_compute; reflexivity)).
Defined.

Lemma invoke_run_status_failure_witness :
  (run MemPlatform
       (invokeActionFunc (lib := exampleLib) {| Istio := "gw:80" |} (exampleInvoke "my-action"))
       (storedWorld (hostAnswering "gw:80" 200 502 "bad gateway"))).1.1
  = Returned (InvokeActionInternalServerError
                {| em_Error := Some ("Error invoking action. Status: 502, Message: bad gateway"
                                     +:+ LF) |}).
Proof.
  apply (invoke_run_status_failure (lib := exampleLib) MemPlatform
           (storedWorld (hostAnswering "gw:80" 200 502 "bad gateway"))
           {| Istio := "gw:80" |} (exampleInvoke "my-action")
           (exampleRequest "run" "{value:{}}") 502 "bad gateway").
  - vm_compute. auto.
  - reflexivity.
  - lia.
Defined.

Lemma invoke_run_malformed_result_witness :
  (run MemPlatform
       (invokeActionFunc (lib := exampleLib) {| Istio := "gw:80" |} (exampleInvoke "my-action"))
       (storedWorld (hostAnswering "gw:80" 200 200 "oops"))).1.1
  = Returned (InvokeActionInternalServerError
                {| em_Error := Some ("Action invocation result was not valid JSON. Result: %!s(int=200)"
                                     +:+ LF +:+ "%!(EXTRA []uint8=[111 111 112 115])") |}).
Proof.
  apply (invoke_run_malformed_result (lib := exampleLib) MemPlatform
           (storedWorld (hostAnswering "gw:80" 200 200 "oops"))
           {| Istio := "gw:80" |} (exampleInvoke "my-action")
           (exampleRequest "run" "{value:{}}") "oops" syntaxError).
  - vm_compute. auto.
  - reflexivity.
  - reflexivity.
Defined.

(** C1: the invocation fetches the Route, and then the Configuration,
    under the action name as the caller wrote it, where every other
    handler uses the normalized name.  An action created as [My Action]
    is stored as [my-action]: Get finds it under [My Action], invoke
    answers NotFound after asking for the Route [My Action]. *)
Theorem invoke_fetches_unnormalized_name :
  (∀ (lib : GoLib) (P : Platform) (w : World P) (kwskFlags : Flags)
     (params : InvokeActionParams),
     ∃ r tr, (run P (invokeActionFunc kwskFlags params) w).2
             = Ev_Routes_Get (namespaceOrDefault (inv_Namespace params))
                             (inv_ActionName params) r :: tr) ∧
  sanitizeActionName (lib := exampleLib) "My Action" = "my-action" ∧
  let stored := storedWorld (hostAnswering "gw:80" 200 200 "{}") in
  (run MemPlatform
       (getActionByNameFunc (lib := exampleLib)
          {| get_ActionName := "My Action"; get_Namespace := "_" |}) stored).1.1
  = Returned (GetActionByNameOK exampleAction) ∧
  run MemPlatform
      (invokeActionFunc (lib := exampleLib) {| Istio := "gw:80" |} (exampleInvoke "My Action"))
      stored
  = (Returned (InvokeActionNotFound {| em_Error := Some "route My Action not found" |}),
     stored,
     [Ev_Routes_Get "default" "My Action" (Err (notFound "route" "My Action"))]).
Proof.
  split; [| split; [vm_compute; reflexivity | split; vm_compute; reflexivity]].
  intros lib P w kwskFlags params. unfold invokeActionFunc, call.
  cbn [mbind Prog_bind bind run].
  destruct (answer P _ w) as [r w1].
  match goal with |- context [run P ?p w1] => destruct (run P p w1) as [[o w2] tr] end.
  exists r, tr. reflexivity.
Qed.

(** ** Bytes and UTF-8 *)

Lemma byte_val_range (c : ascii) : (0 ≤ byte_val c < 256)%Z.
Proof.
  unfold byte_val. pose proof (N_ascii_bounded c) as H. lia.
Qed.

Lemma byte_val_mk (x : Z) : byte_val (mk_byte x) = (x mod 256)%Z.
Proof.
  unfold byte_val, mk_byte.
  pose proof (Z.mod_pos_bound x 256 ltac:(lia)) as Hx.
  rewrite N_ascii_embedding by lia. lia.
Qed.

Lemma mk_byte_val (c : ascii) : mk_byte (byte_val c) = c.
Proof.
  unfold mk_byte. pose proof (byte_val_range c) as H.
  rewrite Z.mod_small by lia. unfold byte_val.
  rewrite N2Z.id. apply ascii_N_embedding.
Qed.

(** [x << n | b] is [x * 2^n + b] when [b] fits in [n] bits. *)
Lemma lor_shiftl_small (x b n : Z) :
  (0 ≤ n)%Z → (0 ≤ b < 2 ^ n)%Z → Z.lor (Z.shiftl x n) b = (x * 2 ^ n + b)%Z.
Proof.
  intros Hn Hb.
  assert (Hdisj : Z.land (Z.shiftl x n) b = 0%Z).
  { apply Z.bits_inj'. intros i Hi. rewrite Z.land_spec, Z.bits_0.
    destruct (Z.lt_ge_cases i n) as [Hlt | Hge].
    - rewrite Z.shiftl_spec_low by lia. reflexivity.
    - rewrite <- (Z.mod_small b (2 ^ n)) by lia.
      rewrite Z.mod_pow2_bits_high by lia. apply andb_false_r. }
  rewrite <- Z.lxor_lor by exact Hdisj.
  rewrite <- Z.add_nocarry_lxor by exact Hdisj.
  rewrite Z.shiftl_mul_pow2 by lia. reflexivity.
Qed.

Lemma land_ones_mod (x n : Z) : (0 ≤ n)%Z → Z.land x (2 ^ n - 1) = (x mod 2 ^ n)%Z.
Proof.
  intros Hn. rewrite <- Z.land_ones by lia.
  rewrite Z.ones_equiv. reflexivity.
Qed.

Lemma land_3F (x : Z) : Z.land x 0x3F = (x mod 64)%Z.
Proof. exact (land_ones_mod x 6 ltac:(lia)). Qed.
Lemma land_1F (x : Z) : Z.land x 0x1F = (x mod 32)%Z.
Proof. exact (land_ones_mod x 5 ltac:(lia)). Qed.
Lemma land_0F (x : Z) : Z.land x 0x0F = (x mod 16)%Z.
Proof. exact (land_ones_mod x 4 ltac:(lia)). Qed.
Lemma land_07 (x : Z) : Z.land x 0x07 = (x mod 8)%Z.
Proof. exact (land_ones_mod x 3 ltac:(lia)). Qed.

Lemma shiftr_div (x n : Z) : (0 ≤ n)%Z → Z.shiftr x n = (x / 2 ^ n)%Z.
Proof. intros Hn. apply Z.shiftr_div_pow2. exact Hn. Qed.

(** A marker byte or'ed with a payload that fits below it. *)
Lemma lor_marker (m x b n : Z) :
  m = Z.shiftl x n → (0 ≤ n)%Z → (0 ≤ b < 2 ^ n)%Z → Z.lor m b = (m + b)%Z.
Proof.
  intros -> Hn Hb. rewrite lor_shiftl_small by assumption.
  rewrite Z.shiftl_mul_pow2 by lia. reflexivity.
Qed.

(** Turns the boolean tests of the decoder and the encoder into
    arithmetic facts. *)
Ltac bool_facts :=
  unfold notCont, RuneSelf, MaxRune, MaxASCII in *;
  repeat match goal with
         | H : (_ || _) = false |- _ => apply orb_false_iff in H; destruct H
         | H : (_ && _) = true |- _ => apply andb_true_iff in H; destruct H
         | H : (_ || _) = true |- _ => apply orb_true_iff in H; destruct H
         | H : (_ && _) = false |- _ => apply andb_false_iff in H; destruct H
         | H : negb _ = true |- _ => apply negb_true_iff in H
         | H : negb _ = false |- _ => apply negb_false_iff in H
         | H : (_ <? _)%Z = true |- _ => apply Z.ltb_lt in H
         | H : (_ <? _)%Z = false |- _ => apply Z.ltb_ge in H
         | H : (_ <=? _)%Z = true |- _ => apply Z.leb_le in H
         | H : (_ <=? _)%Z = false |- _ => apply Z.leb_gt in H
         | H : (_ =? _)%Z = true |- _ => apply Z.eqb_eq in H
         | H : (_ =? _)%Z = false |- _ => apply Z.eqb_neq in H
         end.

Lemma ValidRune_spec (r : Z) :
  ValidRune r = true ↔ (0 ≤ r < 0xD800 ∨ 0xDFFF < r ≤ 0x10FFFF)%Z.
Proof. unfold ValidRune, MaxRune. lia. Qed.

Lemma lor3 (a b c : Z) :
  (0 ≤ b < 64)%Z → (0 ≤ c < 64)%Z →
  Z.lor (Z.lor (Z.shiftl a 12) (Z.shiftl b 6)) c = (a * 4096 + b * 64 + c)%Z.
Proof.
  intros Hb Hc.
  replace (Z.shiftl a 12) with (Z.shiftl (a * 64) 6)
    by (rewrite !Z.shiftl_mul_pow2 by lia; lia).
  rewrite <- Z.shiftl_lor.
  rewrite (lor_shiftl_small _ c 6) by lia.
  replace (a * 64)%Z with (Z.shiftl a 6) by (rewrite Z.shiftl_mul_pow2 by lia; lia).
  rewrite (lor_shiftl_small a b 6) by lia. lia.
Qed.

Lemma lor2 (a b : Z) :
  (0 ≤ b < 64)%Z → Z.lor (Z.shiftl a 6) b = (a * 64 + b)%Z.
Proof. intros Hb. rewrite (lor_shiftl_small a b 6) by lia. lia. Qed.

Lemma lor4 (a b c d : Z) :
  (0 ≤ b < 64)%Z → (0 ≤ c < 64)%Z → (0 ≤ d < 64)%Z →
  Z.lor (Z.lor (Z.lor (Z.shiftl a 18) (Z.shiftl b 12)) (Z.shiftl c 6)) d
  = (a * 262144 + b * 4096 + c * 64 + d)%Z.
Proof.
  intros Hb Hc Hd.
  replace (Z.shiftl a 18) with (Z.shiftl (a * 64) 12)
    by (rewrite !Z.shiftl_mul_pow2 by lia; lia).
  rewrite <- Z.shiftl_lor.
  replace (a * 64)%Z with (Z.shiftl a 6) by (rewrite Z.shiftl_mul_pow2 by lia; lia).
  rewrite (lor_shiftl_small a b 6) by lia.
  rewrite lor3 by lia. lia.
Qed.

(** Every rune the decoder returns is a Unicode scalar value. *)
Lemma DecodeRuneInString_valid (s : string) : ValidRune (DecodeRuneInString s).1 = true.
Proof.
  unfold DecodeRuneInString.
  repeat case_match; cbn [fst]; try reflexivity.
  all: unfold acceptRange in *; repeat case_match; simplify_eq; bool_facts.
  all: apply ValidRune_spec.
  all: rewrite ?land_3F, ?land_1F, ?land_0F, ?land_07.
  all: first [rewrite lor4 by (apply Z.mod_pos_bound; lia) | rewrite lor3 by (apply Z.mod_pos_bound; lia) | rewrite lor2 by (apply Z.mod_pos_bound; lia) | idtac].
  all: repeat match goal with
              | c : ascii |- _ => pose proof (byte_val_range c); generalize dependent c
              end; intros.
  all: Z.div_mod_to_equations; lia.
Qed.

Lemma append_cons (c : ascii) (t rest : string) :
  String c t +:+ rest = String c (t +:+ rest).
Proof. reflexivity. Qed.

Lemma append_nil (rest : string) : "" +:+ rest = rest.
Proof. reflexivity. Qed.

(** The bytes the encoder writes. *)
Lemma cont_byte (x : Z) :
  byte_val (mk_byte (Z.lor 0x80 (Z.land x 0x3F))) = (128 + x mod 64)%Z.
Proof.
  rewrite byte_val_mk, land_3F.
  pose proof (Z.mod_pos_bound x 64 ltac:(lia)) as Hx.
  rewrite (lor_marker 0x80 2 (x mod 64) 6) by (reflexivity || lia).
  apply Z.mod_small. lia.
Qed.

Lemma lead_byte (m x n b : Z) :
  m = Z.shiftl x n → (0 ≤ n)%Z → (0 ≤ b < 2 ^ n)%Z → (0 ≤ m + b < 256)%Z →
  byte_val (mk_byte (Z.lor m b)) = (m + b)%Z.
Proof.
  intros Hm Hn Hb Hsmall. rewrite byte_val_mk.
  rewrite (lor_marker m x b n) by assumption.
  apply Z.mod_small. exact Hsmall.
Qed.

(** Decides the comparisons of the goal from the arithmetic context. *)
Ltac decide_tests :=
  unfold MaxRune, RuneSelf, MaxASCII in *;
  repeat match goal with
         | |- context [(?a <=? ?b)%Z] => destruct (Z.leb_spec a b); try lia
         | |- context [(?a <? ?b)%Z] => destruct (Z.ltb_spec a b); try lia
         | |- context [(?a =? ?b)%Z] => destruct (Z.eqb_spec a b); try lia
         end;
  cbn [andb orb negb].

(** The four shapes of an encoded scalar value. *)
Lemma EncodeRune_1 (r : Z) :
  (0 ≤ r ≤ 0x7F)%Z → EncodeRune r = String (mk_byte r) "".
Proof. intros Hr. unfold EncodeRune. decide_tests; reflexivity. Qed.

Lemma EncodeRune_2 (r : Z) :
  (0x7F < r ≤ 0x7FF)%Z →
  EncodeRune r = String (mk_byte (Z.lor 0xC0 (Z.shiftr r 6)))
                   (String (mk_byte (Z.lor 0x80 (Z.land r 0x3F))) "").
Proof. intros Hr. unfold EncodeRune. decide_tests; reflexivity. Qed.

Lemma EncodeRune_3 (r : Z) :
  (0x7FF < r < 0xD800 ∨ 0xDFFF < r ≤ 0xFFFF)%Z → EncodeRune r = encode3 r.
Proof. intros Hr. unfold EncodeRune, MaxRune. decide_tests; reflexivity. Qed.

Lemma EncodeRune_4 (r : Z) :
  (0xFFFF < r ≤ 0x10FFFF)%Z →
  EncodeRune r = String (mk_byte (Z.lor 0xF0 (Z.shiftr r 18)))
                   (String (mk_byte (Z.lor 0x80 (Z.land (Z.shiftr r 12) 0x3F)))
                      (String (mk_byte (Z.lor 0x80 (Z.land (Z.shiftr r 6) 0x3F)))
                         (String (mk_byte (Z.lor 0x80 (Z.land r 0x3F))) ""))).
Proof. intros Hr. unfold EncodeRune, MaxRune. decide_tests; reflexivity. Qed.

Lemma EncodeRune_invalid (r : Z) :
  ValidRune r = false → EncodeRune r = encode3 RuneError.
Proof.
  intros Hr. unfold ValidRune, MaxRune in Hr. unfold EncodeRune, MaxRune.
  decide_tests; (reflexivity || (exfalso; lia)).
Qed.

(** Decoding what the encoder wrote for a scalar value gives it back,
    whatever follows. *)
Lemma DecodeRuneInString_EncodeRune (r : Z) (rest : string) :
  ValidRune r = true →
  DecodeRuneInString (EncodeRune r +:+ rest) = (r, String.length (EncodeRune r)).
Proof.
  intros Hv. apply ValidRune_spec in Hv.
  assert (Hclass : (0 ≤ r ≤ 0x7F ∨ 0x7F < r ≤ 0x7FF ∨
                    (0x7FF < r < 0xD800 ∨ 0xDFFF < r ≤ 0xFFFF) ∨
                    0xFFFF < r ≤ 0x10FFFF)%Z) by lia.
  destruct Hclass as [H1 | [H2 | [H3 | H4]]].
  - rewrite EncodeRune_1 by exact H1.
    rewrite append_cons, append_nil. cbn [String.length]. unfold DecodeRuneInString.
    rewrite byte_val_mk, Z.mod_small by lia. unfold RuneSelf. decide_tests; reflexivity.
  - rewrite EncodeRune_2 by exact H2.
    rewrite !append_cons, append_nil. cbn [String.length]. unfold DecodeRuneInString.
    rewrite cont_byte, shiftr_div by lia. change (2 ^ 6)%Z with 64%Z.
    rewrite (lead_byte 0xC0 3 6) by (reflexivity || (Z.div_mod_to_equations; lia)).
    unfold acceptRange, RuneSelf.
    pose proof (Z.div_mod r 64 ltac:(lia)) as Hdm.
    pose proof (Z.mod_pos_bound r 64 ltac:(lia)) as Hm.
    decide_tests; cbn [Nat.ltb Nat.leb String.length].
    all: try (exfalso; Z.div_mod_to_equations; lia).
    all: rewrite ?land_3F, ?land_1F, ?land_0F, ?land_07; rewrite lor2 by (apply Z.mod_pos_bound; lia).
    all: f_equal; Z.div_mod_to_equations; lia.
  - rewrite EncodeRune_3 by exact H3. unfold encode3.
    rewrite !append_cons, append_nil. cbn [String.length]. unfold DecodeRuneInString.
    rewrite !cont_byte, !shiftr_div by lia.
    change (2 ^ 6)%Z with 64%Z; change (2 ^ 12)%Z with 4096%Z.
    rewrite (lead_byte 0xE0 7 5) by (reflexivity || (Z.div_mod_to_equations; lia)).
    unfold acceptRange, RuneSelf, notCont.
    pose proof (Z.div_mod r 4096 ltac:(lia)) as Hdm.
    pose proof (Z.mod_pos_bound r 4096 ltac:(lia)) as Hm.
    pose proof (Z.div_mod (r / 64) 64 ltac:(lia)) as Hdm1.
    pose proof (Z.mod_pos_bound (r / 64) 64 ltac:(lia)) as Hm1.
    pose proof (Z.div_mod r 64 ltac:(lia)) as Hdm2.
    pose proof (Z.mod_pos_bound r 64 ltac:(lia)) as Hm2.
    decide_tests; cbn [Nat.ltb Nat.leb String.length].
    all: try (exfalso; Z.div_mod_to_equations; lia).
    all: rewrite ?land_3F, ?land_1F, ?land_0F, ?land_07; rewrite lor3 by (apply Z.mod_pos_bound; lia).
    all: f_equal; Z.div_mod_to_equations; lia.
  - rewrite EncodeRune_4 by exact H4.
    rewrite !append_cons, append_nil. cbn [String.length]. unfold DecodeRuneInString.
    rewrite !cont_byte, !shiftr_div by lia.
    change (2 ^ 6)%Z with 64%Z; change (2 ^ 12)%Z with 4096%Z;
      change (2 ^ 18)%Z with 262144%Z.
    rewrite (lead_byte 0xF0 15 4) by (reflexivity || (Z.div_mod_to_equations; lia)).
    unfold acceptRange, RuneSelf, notCont.
    pose proof (Z.div_mod r 262144 ltac:(lia)) as Hdm.
    pose proof (Z.mod_pos_bound r 262144 ltac:(lia)) as Hm.
    pose proof (Z.div_mod (r / 4096) 64 ltac:(lia)) as Hdm0.
    pose proof (Z.mod_pos_bound (r / 4096) 64 ltac:(lia)) as Hm0.
    pose proof (Z.div_mod (r / 64) 64 ltac:(lia)) as Hdm1.
    pose proof (Z.mod_pos_bound (r / 64) 64 ltac:(lia)) as Hm1.
    pose proof (Z.div_mod r 64 ltac:(lia)) as Hdm2.
    pose proof (Z.mod_pos_bound r 64 ltac:(lia)) as Hm2.
    decide_tests; cbn [Nat.ltb Nat.leb String.length].
    all: try (exfalso; Z.div_mod_to_equations; lia).
    all: rewrite ?land_3F, ?land_1F, ?land_0F, ?land_07; rewrite lor4 by (apply Z.mod_pos_bound; lia).
    all: f_equal; Z.div_mod_to_equations; lia.
Qed.

(** ** The rune sequence of a string *)

Lemma runes_from_skip (p rest : string) :
  runes_from (String.length p) (p +:+ rest) = runes rest.
Proof.
  induction p as [| c p IH]; [reflexivity |].
  rewrite append_cons. cbn [String.length runes_from]. exact IH.
Qed.

Lemma EncodeRune_cons (r : Z) : ∃ c t, EncodeRune r = String c t.
Proof. unfold EncodeRune, encode3. repeat case_match; eauto. Qed.

Lemma runes_EncodeRune (r : Z) (rest : string) :
  ValidRune r = true → runes (EncodeRune r +:+ rest) = r :: runes rest.
Proof.
  intros Hv. pose proof (DecodeRuneInString_EncodeRune r rest Hv) as Hd.
  destruct (EncodeRune_cons r) as (c & t & He). rewrite He in *.
  rewrite append_cons in *. unfold runes at 1. cbn [runes_from]. rewrite Hd.
  cbn [String.length]. rewrite Nat.sub_1_r, Nat.pred_succ.
  by rewrite runes_from_skip.
Qed.

Lemma runes_encodeRunes (rs : list Z) :
  Forall (fun r => ValidRune r = true) rs → runes (encodeRunes rs) = rs.
Proof.
  induction 1 as [| r rs Hr _ IH]; [reflexivity |].
  cbn [encodeRunes foldr]. rewrite runes_EncodeRune by exact Hr.
  f_equal. exact IH.
Qed.

Lemma runes_from_valid (skip : nat) (s : string) :
  Forall (fun r => ValidRune r = true) (runes_from skip s).
Proof.
  revert skip. induction s as [| c t IH]; intros skip; [constructor |].
  cbn [runes_from]. destruct skip as [| k]; [| apply IH].
  pose proof (DecodeRuneInString_valid (String c t)) as Hv.
  destruct (DecodeRuneInString (String c t)) as [r width].
  constructor; [exact Hv | apply IH].
Qed.

Lemma runes_valid (s : string) : Forall (fun r => ValidRune r = true) (runes s).
Proof. apply runes_from_valid. Qed.

(** An ASCII string is the sequence of its bytes. *)
Lemma runes_ASCII (s : string) :
  isASCII s = true → runes s = map byte_val (list_ascii_of_string s).
Proof.
  induction s as [| c t IH]; [reflexivity |].
  cbn [isASCII]. intros [Hc Ht]%andb_true_iff.
  unfold runes. cbn [runes_from DecodeRuneInString list_ascii_of_string map].
  rewrite Hc. cbn [Nat.sub]. f_equal. apply IH. exact Ht.
Qed.

(** ** [strings.Replace] of the space by the hyphen *)

Lemma replace_space (s : string) (n : Z) :
  (n < 0)%Z → replace_from " " "-" n 0 s = mapBytes hyphenate s.
Proof.
  revert n. induction s as [| c t IH]; intros n Hn; [reflexivity |].
  cbn [replace_from mapBytes String.length Nat.sub String.prefix].
  destruct (Z.eqb_spec n 0) as [-> | _]; [lia |].
  unfold hyphenate. destruct (ascii_dec " " c) as [<- | Hne].
  - cbn [Ascii.eqb Bool.eqb]. destruct t; rewrite append_cons, append_nil;
      f_equal; apply IH; lia.
  - destruct (Ascii.eqb_spec c " ") as [-> | _]; [contradiction |].
    f_equal. apply IH. exact Hn.
Qed.

Lemma sanitize_Replace (s : string) :
  strings_Replace s " " "-" (-1) = mapBytes hyphenate s.
Proof. unfold strings_Replace. cbn [String.eqb Ascii.eqb Bool.eqb orb Z.eqb]. by apply replace_space. Qed.

Lemma mapBytes_app (f : ascii → ascii) (s t : string) :
  mapBytes f (s +:+ t) = mapBytes f s +:+ mapBytes f t.
Proof.
  induction s as [| c s IH]; [reflexivity |].
  rewrite append_cons. cbn [mapBytes]. rewrite append_cons. by rewrite IH.
Qed.

Lemma noSpace_app (s t : string) : noSpace (s +:+ t) = noSpace s && noSpace t.
Proof.
  induction s as [| c s IH]; [reflexivity |].
  rewrite append_cons. cbn [noSpace]. rewrite IH. by rewrite andb_assoc.
Qed.

Lemma hasUpper_app (s t : string) : hasUpper (s +:+ t) = hasUpper s || hasUpper t.
Proof.
  induction s as [| c s IH]; [reflexivity |].
  rewrite append_cons. cbn [hasUpper]. rewrite IH. by rewrite orb_assoc.
Qed.

(** Bytes outside ASCII are neither spaces nor upper-case letters. *)
Lemma highBytes_facts (s : string) :
  highBytes s = true →
  mapBytes hyphenate s = s ∧ noSpace s = true ∧ hasUpper s = false.
Proof.
  induction s as [| c t IH]; [done |].
  cbn [highBytes mapBytes noSpace hasUpper]. intros [Hc Ht]%andb_true_iff.
  destruct (IH Ht) as (-> & -> & ->). apply Z.leb_le in Hc.
  assert (Hsp : Ascii.eqb c " " = false).
  { destruct (Ascii.eqb_spec c " ") as [-> | _]; [| reflexivity].
    change (byte_val " ") with 32%Z in Hc. lia. }
  unfold hyphenate, isUpperByte. rewrite Hsp.
  change (byte_val "A") with 65%Z. change (byte_val "Z") with 90%Z.
  repeat split. cbn [negb andb orb].
  destruct (Z.leb_spec 65 (byte_val c)), (Z.leb_spec (byte_val c) 90); try reflexivity; lia.
Qed.

(** Outside ASCII the encoder writes no ASCII byte. *)
Lemma EncodeRune_high (r : Z) :
  ¬ (0 ≤ r ≤ 0x7F)%Z → highBytes (EncodeRune r) = true.
Proof.
  intros Hr.
  destruct (ValidRune r) eqn:Hv; [| by rewrite EncodeRune_invalid].
  apply ValidRune_spec in Hv.
  assert (Hclass : (0x7F < r ≤ 0x7FF ∨
                    (0x7FF < r < 0xD800 ∨ 0xDFFF < r ≤ 0xFFFF) ∨
                    0xFFFF < r ≤ 0x10FFFF)%Z) by lia.
  destruct Hclass as [H2 | [H3 | H4]].
  - rewrite EncodeRune_2 by exact H2. cbn [highBytes].
    rewrite cont_byte, shiftr_div by lia. change (2 ^ 6)%Z with 64%Z.
    rewrite (lead_byte 0xC0 3 6) by (reflexivity || (Z.div_mod_to_equations; lia)).
    rewrite !andb_true_iff, !Z.leb_le. repeat split; Z.div_mod_to_equations; lia.
  - rewrite EncodeRune_3 by exact H3. unfold encode3. cbn [highBytes].
    rewrite !cont_byte, !shiftr_div by lia. change (2 ^ 12)%Z with 4096%Z.
    rewrite (lead_byte 0xE0 7 5) by (reflexivity || (Z.div_mod_to_equations; lia)).
    rewrite !andb_true_iff, !Z.leb_le. repeat split; Z.div_mod_to_equations; lia.
  - rewrite EncodeRune_4 by exact H4. cbn [highBytes].
    rewrite !cont_byte, !shiftr_div by lia. change (2 ^ 18)%Z with 262144%Z.
    rewrite (lead_byte 0xF0 15 4) by (reflexivity || (Z.div_mod_to_equations; lia)).
    rewrite !andb_true_iff, !Z.leb_le. repeat split; Z.div_mod_to_equations; lia.
Qed.

(** ** Lower case *)

Section LowerCase.
Context {lib : GoLib}.
Hypothesis Hcase : caseTableSound lib.

(** [unicode.ToLower] maps scalar values to scalar values that are their
    own lower case. *)
Lemma unicode_ToLower_sound (r : Z) :
  ValidRune r = true →
  ValidRune (unicode_ToLower r) = true ∧
  unicode_ToLower (unicode_ToLower r) = unicode_ToLower r.
Proof.
  intros Hv. unfold unicode_ToLower at 1 3 4.
  change (byte_val "A") with 65%Z. change (byte_val "Z") with 90%Z.
  change (byte_val "a") with 97%Z.
  destruct (Z.leb_spec r MaxASCII) as [Hle | Hgt].
  - apply ValidRune_spec in Hv. unfold MaxASCII in Hle.
    assert (Hlow : ∀ x, (0 ≤ x ≤ 127)%Z → ¬ (65 ≤ x ≤ 90)%Z →
                        ValidRune x = true ∧ unicode_ToLower x = x).
    { intros x Hx Hnu. split; [apply ValidRune_spec; lia |].
      unfold unicode_ToLower, MaxASCII.
      change (byte_val "A") with 65%Z. change (byte_val "Z") with 90%Z.
      decide_tests; (reflexivity || lia). }
    decide_tests; apply Hlow; lia.
  - apply Hcase; assumption.
Qed.

Lemma strings_Map_encode (s : string) :
  strings_Map unicode_ToLower s = encodeRunes (map unicode_ToLower (runes s)).
Proof.
  unfold strings_Map, encodeRunes. pose proof (runes_valid s) as Hv.
  induction Hv as [| r rs Hr _ IH]; [reflexivity |].
  cbn [foldr map]. rewrite IH.
  destruct (unicode_ToLower_sound r Hr) as [Hv' _]. apply ValidRune_spec in Hv'.
  destruct (Z.leb_spec 0 (unicode_ToLower r)); [reflexivity | lia].
Qed.

(** The ASCII loop of [strings.ToLower] agrees with the general path. *)
Lemma lowerASCII_encode (s : string) :
  isASCII s = true →
  encodeRunes (map unicode_ToLower (map byte_val (list_ascii_of_string s))) = lowerASCII s.
Proof.
  induction s as [| c t IH]; [reflexivity |].
  cbn [isASCII]. intros [Hc Ht]%andb_true_iff. apply Z.ltb_lt in Hc. unfold RuneSelf in Hc.
  cbn [list_ascii_of_string map encodeRunes foldr lowerASCII].
  fold (encodeRunes (map unicode_ToLower (map byte_val (list_ascii_of_string t)))).
  rewrite (IH Ht). pose proof (byte_val_range c) as Hb.
  unfold unicode_ToLower, lowerByte, isUpperByte, MaxASCII.
  change (byte_val "A") with 65%Z. change (byte_val "Z") with 90%Z.
  change (byte_val "a") with 97%Z.
  decide_tests.
  - rewrite EncodeRune_1 by lia. reflexivity.
  - rewrite EncodeRune_1 by lia. rewrite mk_byte_val. reflexivity.
  - rewrite EncodeRune_1 by lia. rewrite mk_byte_val. reflexivity.
Qed.

Lemma lowerASCII_id (s : string) : hasUpper s = false → lowerASCII s = s.
Proof.
  induction s as [| c t IH]; [reflexivity |].
  cbn [hasUpper lowerASCII]. intros [Hc Ht]%orb_false_iff.
  unfold lowerByte. rewrite Hc, (IH Ht). reflexivity.
Qed.

(** [strings.ToLower] writes the lower case of every rune of [s]. *)
Lemma strings_ToLower_encode (s : string) :
  strings_ToLower s = encodeRunes (map unicode_ToLower (runes s)).
Proof.
  unfold strings_ToLower. destruct (isASCII s) eqn:Hascii.
  - rewrite runes_ASCII, lowerASCII_encode by exact Hascii.
    destruct (hasUpper s) eqn:Hup; cbn [negb]; [reflexivity |].
    symmetry. by apply lowerASCII_id.
  - apply strings_Map_encode.
Qed.

(** Replacing spaces in encoded text replaces the space runes. *)
Lemma hyphenate_EncodeRune (r : Z) :
  mapBytes hyphenate (EncodeRune r) = EncodeRune (hyphenRune r).
Proof.
  unfold hyphenRune. destruct (Z.eqb_spec r 0x20) as [-> | Hne]; [reflexivity |].
  destruct (Z_le_dec 0 r) as [H0 |]; [destruct (Z_le_dec r 0x7F) as [H1 |] |].
  - rewrite EncodeRune_1 by lia. cbn [mapBytes]. unfold hyphenate.
    destruct (Ascii.eqb_spec (mk_byte r) " ") as [Heq | _]; [| reflexivity].
    apply (f_equal byte_val) in Heq. rewrite byte_val_mk, Z.mod_small in Heq by lia.
    change (byte_val " ") with 32%Z in Heq. lia.
  - apply highBytes_facts, EncodeRune_high. lia.
  - apply highBytes_facts, EncodeRune_high. lia.
Qed.

Lemma hyphenate_encodeRunes (rs : list Z) :
  mapBytes hyphenate (encodeRunes rs) = encodeRunes (map hyphenRune rs).
Proof.
  induction rs as [| r rs IH]; [reflexivity |].
  cbn [encodeRunes foldr map]. rewrite mapBytes_app, hyphenate_EncodeRune.
  f_equal. exact IH.
Qed.

Lemma normalRune_bytes (r : Z) :
  normalRune r → noSpace (EncodeRune r) = true ∧ hasUpper (EncodeRune r) = false.
Proof.
  intros (Hv & Hfix & Hsp).
  destruct (Z_le_dec 0 r) as [H0 |]; [destruct (Z_le_dec r 0x7F) as [H1 |] |].
  - rewrite EncodeRune_1 by lia. cbn [noSpace hasUpper]. unfold isUpperByte.
    rewrite byte_val_mk, Z.mod_small by lia.
    change (byte_val "A") with 65%Z. change (byte_val "Z") with 90%Z.
    assert (Hnu : ¬ (65 ≤ r ≤ 90)%Z).
    { intros Hu. revert Hfix. unfold unicode_ToLower, MaxASCII.
      change (byte_val "A") with 65%Z. change (byte_val "Z") with 90%Z.
      change (byte_val "a") with 97%Z. decide_tests. lia. }
    split.
    + destruct (Ascii.eqb_spec (mk_byte r) " ") as [Heq | _]; [| reflexivity].
      apply (f_equal byte_val) in Heq. rewrite byte_val_mk, Z.mod_small in Heq by lia.
      change (byte_val " ") with 32%Z in Heq. lia.
    + decide_tests; (reflexivity || lia).
  - apply highBytes_facts, EncodeRune_high. lia.
  - apply highBytes_facts, EncodeRune_high. lia.
Qed.

Lemma normalRune_hyphen (r : Z) :
  ValidRune r = true → normalRune (hyphenRune (unicode_ToLower r)).
Proof.
  intros Hv. destruct (unicode_ToLower_sound r Hv) as [Hv' Hfix].
  unfold hyphenRune. destruct (Z.eqb_spec (unicode_ToLower r) 0x20) as [_ | Hne].
  - repeat split; discriminate.
  - repeat split; assumption.
Qed.

(** What the normalizer returns, as a sequence of runes. *)
Lemma sanitizeActionName_encode (s : string) :
  sanitizeActionName s
  = encodeRunes (map hyphenRune (map unicode_ToLower (runes s))).
Proof.
  unfold sanitizeActionName.
  rewrite sanitize_Replace, strings_ToLower_encode. apply hyphenate_encodeRunes.
Qed.

Lemma sanitize_runes_normal (s : string) :
  Forall normalRune (map hyphenRune (map unicode_ToLower (runes s))).
Proof.
  rewrite <- list_fmap_compose. apply Forall_fmap.
  eapply Forall_impl; [apply runes_valid |].
  intros r Hr. apply normalRune_hyphen. exact Hr.
Qed.

(** Text made of normalized runes is lower case, has no space, and is
    left as it is by the normalizer. *)
Lemma normal_text (rs : list Z) :
  Forall normalRune rs →
  isLower (encodeRunes rs) = true ∧
  hasUpper (encodeRunes rs) = false ∧
  noSpace (encodeRunes rs) = true ∧
  sanitizeActionName (encodeRunes rs) = encodeRunes rs.
Proof.
  intros Hn.
  assert (Hvalid : Forall (fun r => ValidRune r = true) rs).
  { eapply Forall_impl; [exact Hn |]. by intros r (Hv & _). }
  assert (Hruns : runes (encodeRunes rs) = rs) by (by apply runes_encodeRunes).
  split; [| split; [| split]].
  - unfold isLower. rewrite Hruns. apply forallb_forall. intros r Hr.
    rewrite Forall_forall in Hn. destruct (Hn r) as (_ & Hfix & _).
    { by apply list_elem_of_In. }
    by apply Z.eqb_eq.
  - induction Hn as [| r rs Hr _ IH]; [reflexivity |].
    cbn [encodeRunes foldr]. rewrite hasUpper_app.
    destruct (normalRune_bytes r Hr) as [_ ->]. apply IH.
    + by inversion Hvalid.
    + apply runes_encodeRunes. by inversion Hvalid.
  - induction Hn as [| r rs Hr _ IH]; [reflexivity |].
    cbn [encodeRunes foldr]. rewrite noSpace_app.
    destruct (normalRune_bytes r Hr) as [-> _]. apply IH.
    + by inversion Hvalid.
    + apply runes_encodeRunes. by inversion Hvalid.
  - rewrite sanitizeActionName_encode, Hruns. f_equal.
    clear Hvalid Hruns. induction Hn as [| r rs (_ & Hfix & Hsp) _ IH]; [reflexivity |].
    cbn [map]. rewrite Hfix, IH. unfold hyphenRune.
    destruct (Z.eqb_spec r 0x20); [contradiction | reflexivity].
Qed.

(** C10: for every string the normalizer's result is lower case (no rune
    has another lower case, no byte is an ASCII capital), contains no
    space, and is a fixed point of the normalizer. *)
Theorem sanitize_lower_nospace_idempotent (s : string) :
  isLower (sanitizeActionName s) = true ∧
  hasUpper (sanitizeActionName s) = false ∧
  noSpace (sanitizeActionName s) = true ∧
  sanitizeActionName (sanitizeActionName s) = sanitizeActionName s.
Proof.
  rewrite sanitizeActionName_encode. apply normal_text, sanitize_runes_normal.
Qed.

End LowerCase.

Lemma latin1_lower_sound : caseTableSound exampleLib.
Proof.
  intros r Hgt Hv. apply ValidRune_spec in Hv. unfold MaxASCII in Hgt.
  cbn [To_LowerCase exampleLib].
  assert (Hy : (127 < latin1_lower r)%Z ∧ ValidRune (latin1_lower r) = true ∧
               latin1_lower (latin1_lower r) = latin1_lower r).
  { unfold latin1_lower at 1 2 4 5.
    destruct ((0xC0 <=? r) && (r <=? 0xDE) && negb (r =? 0xD7))%Z eqn:Hrow.
    - bool_facts. split; [lia |]. split; [apply ValidRune_spec; lia |].
      unfold latin1_lower. decide_tests; (reflexivity || lia).
    - split; [lia |]. split; [apply ValidRune_spec; lia |].
      unfold latin1_lower. rewrite Hrow. reflexivity. }
  destruct Hy as (Hy & Hvy & Hfix). split; [exact Hvy |].
  unfold unicode_ToLower, MaxASCII. cbn [To_LowerCase exampleLib].
  destruct (Z.leb_spec (latin1_lower r) 127); [lia | exact Hfix].
Qed.

Lemma sanitize_lower_nospace_idempotent_witness :
  let n := sanitizeActionName (lib := exampleLib) exampleName in
  isLower (lib := exampleLib) n = true ∧
  hasUpper n = false ∧
  noSpace n = true ∧
  sanitizeActionName (lib := exampleLib) n = n.
Proof.
  exact (sanitize_lower_nospace_idempotent (lib := exampleLib) latin1_lower_sound exampleName).
Defined.

Example sanitize_examples :
  sanitizeActionName (lib := exampleLib) "My Action" = "my-action" ∧
  sanitizeActionName (lib := exampleLib) "my-action" = "my-action" ∧
  sanitizeActionName (lib := exampleLib) exampleName
  = String (mk_byte 0xC3) (String (mk_byte 0xA9) (String "t"
      (String (mk_byte 0xC3) (String (mk_byte 0xA9) "-au-lac")))).
Proof. vm_compute. repeat split. Qed.

(** ** More on the name normalizer *)

Lemma namespaceOrDefault_idem (namespace : string) :
  namespaceOrDefault (namespaceOrDefault namespace) = namespaceOrDefault namespace.
Proof.
  unfold namespaceOrDefault.
  destruct (String.eqb_spec namespace "_") as [-> | Hne]; [reflexivity |].
  destruct (String.eqb_spec namespace "_"); [contradiction | reflexivity].
Qed.

(** X1: [namespaceOrDefault] maps ["_"] to ["default"], leaves every other
    namespace as it is, never returns ["_"], and is idempotent. *)
Theorem namespaceOrDefault_resolves (namespace : string) :
  namespaceOrDefault "_" = "default" ∧
  (namespace ≠ "_" → namespaceOrDefault namespace = namespace) ∧
  namespaceOrDefault namespace ≠ "_" ∧
  namespaceOrDefault (namespaceOrDefault namespace) = namespaceOrDefault namespace.
Proof.
  split; [reflexivity |]. split; [| split; [| apply namespaceOrDefault_idem]].
  - intros Hne. unfold namespaceOrDefault.
    destruct (String.eqb_spec namespace "_"); [contradiction | reflexivity].
  - unfold namespaceOrDefault.
    destruct (String.eqb_spec namespace "_"); [discriminate | assumption].
Qed.

Lemma mapBytes_length (f : ascii → ascii) (s : string) :
  String.length (mapBytes f s) = String.length s.
Proof. induction s as [| c t IH]; [reflexivity |]. cbn [mapBytes String.length]. by rewrite IH. Qed.

Lemma mapBytes_lowerASCII (s : string) :
  mapBytes hyphenate (lowerASCII s) = mapBytes (fun c => hyphenate (lowerByte c)) s.
Proof. induction s as [| c t IH]; [reflexivity |]. cbn [mapBytes lowerASCII]. by rewrite IH. Qed.

Lemma noSpace_hyphenate (s : string) : noSpace (mapBytes hyphenate s) = true.
Proof.
  induction s as [| c t IH]; [reflexivity |].
  cbn [mapBytes noSpace]. rewrite IH, andb_true_r. unfold hyphenate.
  destruct (Ascii.eqb_spec c " ") as [-> | Hne]; [reflexivity |].
  destruct (Ascii.eqb_spec c " "); [contradiction | reflexivity].
Qed.

(** X2: on a name made of ASCII bytes only, the normalizer works byte by
    byte, whatever the Unicode case table: capitals are lowered, spaces
    become hyphens, every other byte and the length are kept. *)
Theorem sanitize_ASCII_bytewise {lib : GoLib} (name : string) :
  isASCII name = true →
  sanitizeActionName name = mapBytes (fun c => hyphenate (lowerByte c)) name ∧
  String.length (sanitizeActionName name) = String.length name.
Proof.
  intros Hascii.
  assert (Heq : sanitizeActionName name = mapBytes (fun c => hyphenate (lowerByte c)) name).
  { unfold sanitizeActionName. rewrite sanitize_Replace. unfold strings_ToLower.
    rewrite Hascii. destruct (hasUpper name) eqn:Hup; cbn [negb].
    - apply mapBytes_lowerASCII.
    - rewrite <- (lowerASCII_id name Hup) at 1. apply mapBytes_lowerASCII. }
  split; [exact Heq |]. rewrite Heq. apply mapBytes_length.
Qed.

Lemma sanitize_ASCII_bytewise_witness :
  sanitizeActionName (lib := exampleLib) "My Action #1"
  = mapBytes (fun c => hyphenate (lowerByte c)) "My Action #1" ∧
  String.length (sanitizeActionName (lib := exampleLib) "My Action #1") = 12%nat.
Proof.
  exact (sanitize_ASCII_bytewise (lib := exampleLib) "My Action #1" eq_refl).
Defined.

(** X3: whatever the Unicode case table does, the normalized name holds
    no space. *)
Theorem sanitize_never_space {lib : GoLib} (name : string) :
  noSpace (sanitizeActionName name) = true.
Proof.
  unfold sanitizeActionName. rewrite sanitize_Replace. apply noSpace_hyphenate.
Qed.

(** ** More on the codec *)

(** X4: an action sent without [exec] is stored with the default image
    and read back with an [exec] that is not nil: the default image and
    an empty kind and code. *)
Theorem codec_without_exec (name configName namespace : string) (a : ActionPut) :
  put_Exec a = None →
  let config := actionToConfig name configName namespace a in
  Image (rs_Container (rt_Spec (RevisionTemplate (cfg_Spec config)))) = "openwhisk/action-nodejs-v8" ∧
  act_Exec (configToAction config)
  = Some {| exec_Image := "openwhisk/action-nodejs-v8"; exec_Kind := ""; exec_Code := "" |}.
Proof.
  intros He config. subst config. unfold configToAction, actionToConfig, actionAnnotations.
  rewrite He. cbn [cfg_ObjectMeta cfg_Spec Annotations RevisionTemplate rt_Spec rs_Container
                   Image act_Exec String.eqb].
  split; [reflexivity |].
  rewrite !annotation_insert_ne by discriminate. reflexivity.
Qed.

Lemma codec_without_exec_witness :
  act_Exec (configToAction (actionToConfig "a" "a" "default" (mkActionPut "1" None)))
  = Some {| exec_Image := "openwhisk/action-nodejs-v8"; exec_Kind := ""; exec_Code := "" |}.
Proof.
  exact (proj2 (codec_without_exec "a" "a" "default" (mkActionPut "1" None) eq_refl)).
Defined.

(** X5: an empty [exec.image] is not kept: the default image is stored
    and read back in its place, next to the kind and the code as sent. *)
Theorem codec_empty_image (name configName namespace : string) (a : ActionPut)
    (e : ActionExec) :
  put_Exec a = Some e →
  exec_Image e = "" →
  act_Exec (configToAction (actionToConfig name configName namespace a))
  = Some {| exec_Image := "openwhisk/action-nodejs-v8";
            exec_Kind := exec_Kind e; exec_Code := exec_Code e |}.
Proof.
  intros He Himg. unfold configToAction; cbn [act_Exec].
  unfold actionToConfig; cbn [cfg_ObjectMeta cfg_Spec Annotations RevisionTemplate rt_Spec
                                rs_Container Image].
  destruct (actionAnnotations_exec name a e He) as [-> ->].
  rewrite He, Himg. reflexivity.
Qed.

Lemma codec_empty_image_witness :
  act_Exec (configToAction (actionToConfig "a" "a" "default"
                              (mkActionPut "1" (Some (mkActionExec "" "nodejs:8" "code")))))
  = Some (mkActionExec "openwhisk/action-nodejs-v8" "nodejs:8" "code").
Proof.
  exact (codec_empty_image "a" "a" "default"
           (mkActionPut "1" (Some (mkActionExec "" "nodejs:8" "code")))
           (mkActionExec "" "nodejs:8" "code") eq_refl eq_refl).
Defined.

(** ** More on the action store *)

Section StoreProperties.
Context {lib : GoLib}.
Variable P : Platform.

(** X6: Get and Delete see an action through its normalized name and
    resolved namespace only: two requests whose names normalize to the
    same string, in namespaces that resolve to the same one, make the
    same calls and get the same response. *)
Theorem store_name_variants (w : World P) (name1 namespace1 name2 namespace2 : string) :
  sanitizeActionName name1 = sanitizeActionName name2 →
  namespaceOrDefault namespace1 = namespaceOrDefault namespace2 →
  run P (getActionByNameFunc {| get_ActionName := name1; get_Namespace := namespace1 |}) w
  = run P (getActionByNameFunc {| get_ActionName := name2; get_Namespace := namespace2 |}) w ∧
  run P (deleteActionFunc {| del_ActionName := name1; del_Namespace := namespace1 |}) w
  = run P (deleteActionFunc {| del_ActionName := name2; del_Namespace := namespace2 |}) w.
Proof.
  intros Hname Hns. unfold getActionByNameFunc, getActionByName, deleteActionFunc.
  cbn [get_ActionName get_Namespace del_ActionName del_Namespace].
  rewrite Hname, Hns. split; reflexivity.
Qed.

(** X7: Get makes one call, for the Configuration of the normalized name
    in the resolved namespace, and answers 200 with its decoding, 404
    when the platform says not found, 500 for any other error, each
    error with the platform's text. *)
Theorem get_one_call (w : World P) (params : GetActionByNameParams) :
  let configName := sanitizeActionName (get_ActionName params) in
  let namespace := namespaceOrDefault (get_Namespace params) in
  let '(r, w1) := answer P (Configurations_Get namespace configName) w in
  run P (getActionByNameFunc params) w =
  (Returned match r with
            | Ok config => GetActionByNameOK (configToAction config)
            | Err err =>
                if IsNotFound err
                then GetActionByNameNotFound {| em_Error := Some (err_Error err) |}
                else GetActionByNameInternalServerError {| em_Error := Some (err_Error err) |}
            end,
   w1, [Ev_Configurations_Get namespace configName r]).
Proof.
  intros configName namespace. unfold getActionByNameFunc, getActionByName.
  fold configName namespace. run_handler; (reflexivity || congruence).
Qed.

(** X8: a failed List is answered 500 with the platform's text whatever
    the error is, not-found included: List has no 404. *)
Theorem list_error_is_internal (w w1 : World P) (params : GetAllActionsParams) (err : error) :
  answer P (Configurations_List (namespaceOrDefault (all_Namespace params))) w = (Err err, w1) →
  run P (getAllActionsFunc params) w =
  (Returned (GetAllActionsInternalServerError {| em_Error := Some (err_Error err) |}),
   w1, [Ev_Configurations_List (namespaceOrDefault (all_Namespace params)) (Err err)]).
Proof.
  intros Hlist. unfold getAllActionsFunc, call.
  cbn [mbind mret Prog_bind Prog_ret bind run]. rewrite Hlist. reflexivity.
Qed.

(** X9: when the Configuration cannot be created, for whatever reason
    (an existing one of that name included), update answers 500 with
    the platform's text and calls nothing else: no Route is created and
    nothing is read back. *)
Theorem update_create_failure (w w1 : World P) (params : UpdateActionParams) (err : error) :
  let name := upd_ActionName params in
  let configName := sanitizeActionName name in
  let namespace := namespaceOrDefault (upd_Namespace params) in
  let config := actionToConfig name configName namespace (upd_Action params) in
  answer P (Configurations_Create namespace config) w = (Err err, w1) →
  run P (updateActionFunc params) w =
  (Returned (UpdateActionInternalServerError {| em_Error := Some (err_Error err) |}),
   w1, [Ev_Configurations_Create namespace config (Err err)]).
Proof.
  intros name configName namespace config Hcreate. unfold updateActionFunc, call.
  fold name configName namespace config.
  cbn [mbind mret Prog_bind Prog_ret bind run]. rewrite Hcreate. reflexivity.
Qed.

(** X10: after the Configuration is created, update makes exactly two
    more calls whatever they answer: it creates a Route of the same
    normalized name that sends 100 percent of the traffic to that
    Configuration, then reads the Configuration back.  Nothing is
    deleted: a Configuration whose Route could not be created stays. *)
Theorem update_calls (w w1 : World P) (params : UpdateActionParams) (created : Configuration) :
  let name := upd_ActionName params in
  let configName := sanitizeActionName name in
  let namespace := namespaceOrDefault (upd_Namespace params) in
  let config := actionToConfig name configName namespace (upd_Action params) in
  let route := {| route_ObjectMeta := {| Name := configName; Namespace := namespace;
                                         Annotations := ∅ |};
                  route_Spec := {| Traffic := [ {| ConfigurationName := configName;
                                                   Percent := 100 |} ] |};
                  route_Status := {| Domain := "" |} |} in
  answer P (Configurations_Create namespace config) w = (Ok created, w1) →
  let '(routeAnswer, w2) := answer P (Routes_Create namespace route) w1 in
  let '(got, w3) := answer P (Configurations_Get namespace configName) w2 in
  (run P (updateActionFunc params) w).1.2 = w3 ∧
  (run P (updateActionFunc params) w).2 =
  [Ev_Configurations_Create namespace config (Ok created);
   Ev_Routes_Create namespace route routeAnswer;
   Ev_Configurations_Get namespace configName got].
Proof.
  intros name configName namespace config route Hcreate.
  unfold updateActionFunc, getActionByName, call.
  rewrite namespaceOrDefault_idem. fold name configName namespace config.
  cbn [mbind mret Prog_bind Prog_ret bind run]. rewrite Hcreate.
  fold (routeFor configName namespace). change (routeFor configName namespace) with route.
  run_handler; split; reflexivity.
Qed.

(** X11: the Action in update's 200 is the stored view: a Get of the
    same action, under any spelling of its name, in the world update's
    two creations left, answers 200 with that same Action. *)
Theorem update_returns_stored_view (w w1 : World P) (params : UpdateActionParams)
    (created : Configuration) (action : Action) (name' namespace' : string) :
  let name := upd_ActionName params in
  let configName := sanitizeActionName name in
  let namespace := namespaceOrDefault (upd_Namespace params) in
  answer P (Configurations_Create namespace
              (actionToConfig name configName namespace (upd_Action params))) w
    = (Ok created, w1) →
  (run P (updateActionFunc params) w).1.1 = Returned (UpdateActionOK action) →
  sanitizeActionName name' = configName →
  namespaceOrDefault namespace' = namespace →
  let w2 := (answer P (Routes_Create namespace (routeFor configName namespace)) w1).2 in
  (run P (getActionByNameFunc {| get_ActionName := name'; get_Namespace := namespace' |}) w2).1.1
  = Returned (GetActionByNameOK action).
Proof.
  intros name configName namespace Hcreate Hresp Hname Hns w2. subst w2.
  revert Hresp. unfold updateActionFunc, getActionByNameFunc, getActionByName, call.
  cbn [get_ActionName get_Namespace]. rewrite namespaceOrDefault_idem.
  fold name configName namespace. rewrite Hname, Hns.
  cbn [mbind mret Prog_bind Prog_ret bind run]. rewrite Hcreate.
  run_handler; intros Hresp; simplify_eq; reflexivity.
Qed.

End StoreProperties.

(** ** More on the invocation bridge *)

Section BridgeProperties.
Context {lib : GoLib}.
Variable P : Platform.

(** X13: an init answer with a status other than 200 and 403 ends the
    invocation with 500, the status and the body in the message, and
    the run request is never sent. *)
Theorem invoke_init_status_failure (w : World P) (kwskFlags : Flags)
    (params : InvokeActionParams) (initReq : Request) (resStatus : Z) (resBody : string) :
  let out := (run P (invokeActionFunc kwskFlags params) w).1.1 in
  let tr := (run P (invokeActionFunc kwskFlags params) w).2 in
  In (Ev_Client_Do initReq (Ok (resStatus, resBody))) tr →
  req_URL initReq = gatewayURL (Istio kwskFlags) "init" →
  resStatus ≠ 200%Z →
  resStatus ≠ 403%Z →
  out = Returned (InvokeActionInternalServerError
                    {| em_Error := Some (initStatusMessage resStatus resBody) |}) ∧
  requestURLs tr = [gatewayURL (Istio kwskFlags) "init"].
Proof.
  intros out tr. subst out tr.
  unfold invokeActionFunc, initAction, runAction, actionRequest.
  intros Hinit HinitURL H200 H403.
  run_handler; trace_cases; host_cases.
  all: split; reflexivity.
Qed.

(** X14: a request that fails in transport ends the invocation at once
    with 500 and the transport error's text: it is the last call made,
    so nothing is retried and a failed init is not followed by run. *)
Theorem invoke_transport_failure (w : World P) (kwskFlags : Flags)
    (params : InvokeActionParams) (req : Request) (err : error) :
  let out := (run P (invokeActionFunc kwskFlags params) w).1.1 in
  let tr := (run P (invokeActionFunc kwskFlags params) w).2 in
  In (Ev_Client_Do req (Err err)) tr →
  out = Returned (InvokeActionInternalServerError {| em_Error := Some (err_Error err) |}) ∧
  ∃ before, tr = (before ++ [Ev_Client_Do req (Err err)])%list.
Proof.
  intros out tr. subst out tr.
  unfold invokeActionFunc, initAction, runAction, actionRequest.
  intros Hfail.
  run_handler; trace_cases.
  all: split; [reflexivity |].
  all: cbn [event_of].
  all: first [ by eexists [_; _] | by eexists [_; _; _] ].
Qed.

(** X15: every request to the action host is a POST of a JSON body to
    the gateway's [init] or [run] path, with the Host header set to the
    domain of the Route that was fetched; the init body is the message
    with main [main] and the code annotation of the fetched
    Configuration, the run body the message with the caller's payload,
    or the empty map when there is none. *)
Theorem invoke_request_rule (w : World P) (kwskFlags : Flags) (params : InvokeActionParams)
    (req : Request) (r : result (Z * string)) :
  let tr := (run P (invokeActionFunc kwskFlags params) w).2 in
  In (Ev_Client_Do req r) tr →
  req_Method req = "POST" ∧
  req_ContentType req = "application/json" ∧
  (∃ route, In (Ev_Routes_Get (namespaceOrDefault (inv_Namespace params))
                              (inv_ActionName params) (Ok route)) tr ∧
            req_Host req = Domain (route_Status route)) ∧
  ((req_URL req = gatewayURL (Istio kwskFlags) "init" ∧
    ∃ config, In (Ev_Configurations_Get (namespaceOrDefault (inv_Namespace params))
                                        (inv_ActionName params) (Ok config)) tr ∧
              json_Marshal (InitBody {| init_Value :=
                                          {| Main := "main";
                                             Code := annotation (Annotations (cfg_ObjectMeta config))
                                                                "kwsk_action_code" |} |})
              = Ok (req_Body req)) ∨
   (req_URL req = gatewayURL (Istio kwskFlags) "run" ∧
    json_Marshal (RunBody {| run_Value := match inv_Payload params with
                                          | Some payload => Payload payload
                                          | None => EmptyStringMap
                                          end |})
    = Ok (req_Body req))).
Proof.
  intros tr. subst tr.
  unfold invokeActionFunc, initAction, runAction, actionRequest, getActionParameters.
  intros Hreq.
  run_handler; trace_cases.
  all: cbn [req_Method req_ContentType req_Host req_URL req_Body event_of In].
  all: split; [reflexivity | split; [reflexivity | split; [eauto 8 |]]].
  all: first [ left; split; [reflexivity |]; eexists; split;
               [right; left; reflexivity | eassumption]
             | right; split; [reflexivity | first [eassumption | reflexivity]] ].
Qed.

(** X16: an invocation only reads the platform, and sends the action
    host nothing, or init alone, or init and then run: no request is
    sent twice. *)
Theorem invoke_trace_shape (w : World P) (kwskFlags : Flags) (params : InvokeActionParams) :
  let tr := (run P (invokeActionFunc kwskFlags params) w).2 in
  forallb isReadOnly tr = true ∧
  (requestURLs tr = [] ∨
   requestURLs tr = [gatewayURL (Istio kwskFlags) "init"] ∨
   requestURLs tr = [gatewayURL (Istio kwskFlags) "init"; gatewayURL (Istio kwskFlags) "run"]).
Proof.
  intros tr. subst tr.
  unfold invokeActionFunc, initAction, runAction, actionRequest.
  run_handler; (split; [reflexivity |]); cbn; auto.
Qed.

(** X17: the Activation of a successful invocation carries the fixed
    identifier [dummyactivationid], the resource name of the fetched
    Configuration (not the name the caller wrote), the resolved
    namespace, the parsed body with [success = true], and no logs. *)
Theorem invoke_activation (w : World P) (kwskFlags : Flags) (params : InvokeActionParams)
    (config : Configuration) (runReq : Request) (runBody : string) (resultJson : JSON) :
  let namespace := namespaceOrDefault (inv_Namespace params) in
  let out := (run P (invokeActionFunc kwskFlags params) w).1.1 in
  let tr := (run P (invokeActionFunc kwskFlags params) w).2 in
  In (Ev_Configurations_Get namespace (inv_ActionName params) (Ok config)) tr →
  In (Ev_Client_Do runReq (Ok (200%Z, runBody))) tr →
  req_URL runReq = gatewayURL (Istio kwskFlags) "run" →
  json_Unmarshal runBody = Ok resultJson →
  out = Returned (InvokeActionOK
                    {| ActivationID := Some "dummyactivationid";
                       actv_Name := Some (Name (cfg_ObjectMeta config));
                       actv_Namespace := Some namespace;
                       Response := Some {| Result := resultJson; Success := true |};
                       Logs := [] |}).
Proof.
  intros namespace out tr. subst out tr.
  unfold invokeActionFunc, initAction, runAction, actionRequest. fold namespace.
  intros Hconfig Hrun HrunURL Hjson.
  run_handler; trace_cases; host_cases.
  all: repeat f_equal; congruence.
Qed.

(** X18: with a gateway address the invocation never panics, and a
    panic there is means the address was empty and both fetches had
    succeeded. *)
Theorem invoke_panic_only_without_gateway (w : World P) (kwskFlags : Flags)
    (params : InvokeActionParams) (msg : string) :
  let namespace := namespaceOrDefault (inv_Namespace params) in
  (run P (invokeActionFunc kwskFlags params) w).1.1 = Panicked msg →
  Istio kwskFlags = "" ∧
  msg = istioPanic ∧
  ∃ route config,
    (run P (invokeActionFunc kwskFlags params) w).2
    = [Ev_Routes_Get namespace (inv_ActionName params) (Ok route);
       Ev_Configurations_Get namespace (inv_ActionName params) (Ok config)].
Proof.
  intros namespace.
  unfold invokeActionFunc, initAction, runAction, actionRequest. fold namespace.
  run_handler; intros Hout; simplify_eq.
  split; [by apply String.eqb_eq | split; [reflexivity | eauto]].
Qed.

End BridgeProperties.

(** ** Closed instances of the further properties *)

Lemma store_name_variants_witness :
  let stored := storedWorld (hostAnswering "gw:80" 200 200 "{}") in
  run MemPlatform (getActionByNameFunc (lib := exampleLib)
                     {| get_ActionName := "My Action"; get_Namespace := "_" |}) stored
  = run MemPlatform (getActionByNameFunc (lib := exampleLib)
                       {| get_ActionName := "my-action"; get_Namespace := "default" |}) stored ∧
  run MemPlatform (deleteActionFunc (lib := exampleLib)
                     {| del_ActionName := "My Action"; del_Namespace := "_" |}) stored
  = run MemPlatform (deleteActionFunc (lib := exampleLib)
                       {| del_ActionName := "my-action"; del_Namespace := "default" |}) stored.
Proof.
  intros stored.
  exact (store_name_variants (lib := exampleLib) MemPlatform stored
           "My Action" "_" "my-action" "default"
           ltac:(vm_compute; reflexivity) eq_refl).
Defined.

Lemma list_error_is_internal_witness :
  IsNotFound (notFound "namespace" "gone") = true ∧
  run (DownPlatform (notFound "namespace" "gone"))
      (getAllActionsFunc (lib := exampleLib) {| all_Namespace := "gone" |}) tt
  = (Returned (GetAllActionsInternalServerError
                 {| em_Error := Some "namespace gone not found" |}),
     tt,
     [Ev_Configurations_List "gone" (Err (notFound "namespace" "gone"))]).
Proof.
  split; [reflexivity |].
  exact (list_error_is_internal (lib := exampleLib) (DownPlatform (notFound "namespace" "gone"))
           tt tt {| all_Namespace := "gone" |} (notFound "namespace" "gone") eq_refl).
Defined.

Lemma update_create_failure_witness :
  let stored := storedWorld (hostAnswering "gw:80" 200 200 "{}") in
  run MemPlatform (updateActionFunc (lib := exampleLib) examplePut) stored
  = (Returned (UpdateActionInternalServerError
                 {| em_Error := Some "configuration my-action already exists" |}),
     stored,
     [Ev_Configurations_Create "default"
        (actionToConfig "My Action" "my-action" "default" (upd_Action examplePut))
        (Err (alreadyExists "configuration" "my-action"))]).
Proof.
  intros stored.
  generalize (update_create_failure (lib := exampleLib) MemPlatform stored stored examplePut
                (alreadyExists "configuration" "my-action")
                ltac:(vm_compute; reflexivity)).
  vm_compute. intros H. exact H.
Defined.

Lemma update_calls_witness :
  (run MemPlatform (updateActionFunc (lib := exampleLib) examplePut) routesDownWorld).2
  = [Ev_Configurations_Create "default"
       (actionToConfig "My Action" "my-action" "default" (upd_Action examplePut))
       (Ok (actionToConfig "My Action" "my-action" "default" (upd_Action examplePut)));
     Ev_Routes_Create "default" (routeFor "my-action" "default") (Err outage);
     Ev_Configurations_Get "default" "my-action"
       (Ok (actionToConfig "My Action" "my-action" "default" (upd_Action examplePut)))].
Proof.
  generalize (update_calls (lib := exampleLib) MemPlatform routesDownWorld
                (answer MemPlatform
                   (Configurations_Create "default"
                      (actionToConfig "My Action" "my-action" "default" (upd_Action examplePut)))
                   routesDownWorld).2
                examplePut
                (actionToConfig "My Action" "my-action" "default" (upd_Action examplePut))
                ltac:(vm_compute; reflexivity)).
  vm_compute. intros [_ H]. exact H.
Defined.

Lemma update_returns_stored_view_witness :
  (run MemPlatform
       (getActionByNameFunc (lib := exampleLib)
          {| get_ActionName := "my action"; get_Namespace := "default" |})
       (storedWorld (hostAnswering "gw:80" 200 200 "{}"))).1.1
  = Returned (GetActionByNameOK exampleAction).
Proof.
  generalize (update_returns_stored_view (lib := exampleLib) MemPlatform
                (emptyWorld (hostAnswering "gw:80" 200 200 "{}"))
                (answer MemPlatform
                   (Configurations_Create "default"
                      (actionToConfig "My Action" "my-action" "default" (upd_Action examplePut)))
                   (emptyWorld (hostAnswering "gw:80" 200 200 "{}"))).2
                examplePut
                (actionToConfig "My Action" "my-action" "default" (upd_Action examplePut))
                exampleAction "my action" "default"
                ltac:(vm_compute; reflexivity) ltac:(vm_compute; reflexivity)
                ltac:(vm_compute; reflexivity) eq_refl).
  vm_compute. intros H. exact H.
Defined.

Lemma invoke_init_status_failure_witness :
  let res := run MemPlatform
               (invokeActionFunc (lib := exampleLib) {| Istio := "gw:80" |}
                  (exampleInvoke "my-action"))
               (storedWorld (hostAnswering "gw:80" 500 200 "{}")) in
  res.1.1 = Returned (InvokeActionInternalServerError
                        {| em_Error := Some ("Error initializating action. Status: 500, Message: "
                                             +:+ LF) |}) ∧
  requestURLs res.2 = ["http://gw:80/init"].
Proof.
  intros res.
  apply (invoke_init_status_failure (lib := exampleLib) MemPlatform
           (storedWorld (hostAnswering "gw:80" 500 200 "{}"))
           {| Istio := "gw:80" |} (exampleInvoke "my-action")
           (exampleRequest "init" "{init:function main() {}}") 500 "").
  - vm_compute. auto.
  - reflexivity.
  - lia.
  - lia.
Defined.

Lemma invoke_transport_failure_witness :
  let res := run MemPlatform
               (invokeActionFunc (lib := exampleLib) {| Istio := "gw:80" |}
                  (exampleInvoke "my-action"))
               (storedWorld (fun _ => Err outage)) in
  res.1.1 = Returned (InvokeActionInternalServerError
                        {| em_Error := Some "the server is currently unable to handle the request" |}) ∧
  ∃ before, res.2 = (before ++ [Ev_Client_Do (exampleRequest "init" "{init:function main() {}}")
                                             (Err outage)])%list.
Proof.
  intros res.
  apply (invoke_transport_failure (lib := exampleLib) MemPlatform
           (storedWorld (fun _ => Err outage))
           {| Istio := "gw:80" |} (exampleInvoke "my-action")
           (exampleRequest "init" "{init:function main() {}}") outage).
  vm_compute. auto.
Defined.

Lemma invoke_request_rule_witness :
  let tr := (run MemPlatform
               (invokeActionFunc (lib := exampleLib) {| Istio := "gw:80" |}
                  (exampleInvoke "my-action"))
               (storedWorld (hostAnswering "gw:80" 403 200 "{}"))).2 in
  In (Ev_Client_Do (exampleRequest "run" "{value:{}}") (Ok (200%Z, "{}"))) tr ∧
  ∃ route, In (Ev_Routes_Get "default" "my-action" (Ok route)) tr ∧
           "my-action.default.example.com" = Domain (route_Status route).
Proof.
  intros tr.
  assert (Hin : In (Ev_Client_Do (exampleRequest "run" "{value:{}}") (Ok (200%Z, "{}"))) tr)
    by (vm_compute; auto).
  split; [exact Hin |].
  destruct (invoke_request_rule (lib := exampleLib) MemPlatform
              (storedWorld (hostAnswering "gw:80" 403 200 "{}"))
              {| Istio := "gw:80" |} (exampleInvoke "my-action")
              (exampleRequest "run" "{value:{}}") (Ok (200%Z, "{}")) Hin)
    as (_ & _ & Hroute & _).
  exact Hroute.
Defined.

Lemma invoke_activation_witness :
  (run MemPlatform
       (invokeActionFunc (lib := exampleLib) {| Istio := "gw:80" |} (exampleInvoke "my-action"))
       (storedWorld (hostAnswering "gw:80" 200 200 "{}"))).1.1
  = Returned (InvokeActionOK
                {| ActivationID := Some "dummyactivationid";
                   actv_Name := Some "my-action";
                   actv_Namespace := Some "default";
                   Response := Some {| Result := "{}" : JSON (GoLib := exampleLib);
                                       Success := true |};
                   Logs := [] |}).
Proof.
  apply (invoke_activation (lib := exampleLib) MemPlatform
           (storedWorld (hostAnswering "gw:80" 200 200 "{}"))
           {| Istio := "gw:80" |} (exampleInvoke "my-action")
           (actionToConfig "My Action" "my-action" "default" (upd_Action examplePut))
           (exampleRequest "run" "{value:{}}") "{}" "{}").
  - vm_compute. auto.
  - vm_compute. auto.
  - reflexivity.
  - reflexivity.
Defined.

Lemma invoke_panic_only_without_gateway_witness :
  ∃ route config,
    (run MemPlatform
         (invokeActionFunc (lib := exampleLib) {| Istio := "" |} (exampleInvoke "my-action"))
         (storedWorld (hostAnswering "gw:80" 200 200 "{}"))).2
    = [Ev_Routes_Get "default" "my-action" (Ok route);
       Ev_Configurations_Get "default" "my-action" (Ok config)].
Proof.
  destruct (invoke_panic_only_without_gateway (lib := exampleLib) MemPlatform
              (storedWorld (hostAnswering "gw:80" 200 200 "{}"))
              {| Istio := "" |} (exampleInvoke "my-action") istioPanic
              ltac:(vm_compute; reflexivity)) as (_ & _ & H).
  exact H.
Defined.
